(** * MediaGrab: the YouTube download-and-transcode pipeline

    A shallow embedding of [src/libs/youtube_downloader/YouTubeDownloader.py]
    (class [YouTubeDownloader]), of its callers and of the logger it
    calls, with the fragments of the Python runtime they rely on:
    [str.rsplit], [os.path.join], dictionary subscripting, [os.makedirs],
    [os.remove], [subprocess.run(..., check=True)] and [try]/[except].
    What lies outside the program is a parameter of the development:
    the yt-dlp download tool, the ffmpeg transcoding tool, the answer of
    the operating system to the creation of a directory, and the value
    held by [Logger.debug_level].  Every statement is proved for all of
    their behaviours, or names the behaviour it assumes. *)

From stdpp Require Import gmap strings list.
From Stdlib Require Import ZArith Ascii.

Open Scope string_scope.

(** ** Python strings *)

Module PyStr.

(** [rsplit_last sep s] finds the last occurrence of the one-character
    separator [sep] in [s] and returns what stands before and after it. *)
Fixpoint rsplit_last (sep : ascii) (s : string) : option (string * string) :=
  match s with
  | EmptyString => None
  | String c s' =>
      match rsplit_last sep s' with
      | Some (h, t) => Some (String c h, t)
      | None => if Ascii.eqb c sep then Some (EmptyString, s') else None
      end
  end.

(** [s.rsplit(sep, 1)] for a one-character [sep]: at most one split, made
    at the rightmost separator. *)
Definition rsplit1 (sep : ascii) (s : string) : list string :=
  match rsplit_last sep s with
  | Some (h, t) => [h; t]
  | None => [s]
  end.

(** [l[0]] on the result of a split, which is never empty. *)
Definition item0 (l : list string) : string := hd EmptyString l.

(** [c in s] for a character [c]. *)
Fixpoint contains (c : ascii) (s : string) : bool :=
  match s with
  | EmptyString => false
  | String x s' => Ascii.eqb x c || contains c s'
  end.

(** [s.startswith(c)] and [s.endswith(c)] for a character [c]. *)
Definition startswith (c : ascii) (s : string) : bool :=
  match s with
  | EmptyString => false
  | String x _ => Ascii.eqb x c
  end.

Fixpoint endswith (c : ascii) (s : string) : bool :=
  match s with
  | EmptyString => false
  | String x EmptyString => Ascii.eqb x c
  | String _ s' => endswith c s'
  end.

End PyStr.

(** ** [os.path] (POSIX flavour) *)

Module OsPath.

(** [posixpath.join(a, b)] with two arguments. *)
Definition join (a b : string) : string :=
  if PyStr.startswith "/" b then b
  else if String.eqb a "" || PyStr.endswith "/" a then a +:+ b
  else a +:+ "/" +:+ b.

End OsPath.

(** ** The Python runtime seen by the downloader *)

(** The exceptions that can occur while the downloader runs.  All of them
    are instances of Python's [Exception]. *)
Inductive exn : Type :=
| KeyError (key : string)
| TypeError
| CalledProcessError (returncode : Z) (cmd : list string)
| FileNotFoundError (path : string)
| FileExistsError (path : string)
| NotADirectoryError (path : string)
| PermissionError (path : string)
| DownloadError (msg : string).

(** The classes named in the [except] clauses of the source. *)
Inductive exn_class : Type :=
| Exception
| subprocess_CalledProcessError.

Definition isinstance (e : exn) (c : exn_class) : bool :=
  match c, e with
  | Exception, _ => true
  | subprocess_CalledProcessError, CalledProcessError _ _ => true
  | subprocess_CalledProcessError, _ => false
  end.

(** [LoggerLevel] of [Logger.py]. *)
Inductive LoggerLevel : Type := DEBUG | INFO | WARNING | ERROR | CRITICAL.

Definition LoggerLevel_value (l : LoggerLevel) : Z :=
  match l with
  | DEBUG => 10 | INFO => 20 | WARNING => 30 | ERROR => 40 | CRITICAL => 50
  end.

(** The options dictionary handed to [yt_dlp.YoutubeDL], one field per key;
    [H] is the type of the progress hooks. *)
Record YdlOpts (H : Type) : Type := mkYdlOpts {
  outtmpl : string;
  format : string;
  skip_unavailable_fragments : bool;
  ignoreerrors : bool;
  progress_hooks : list H;
  noplaylist : bool
}.
Arguments mkYdlOpts {H}.
Arguments outtmpl {H}.
Arguments format {H}.
Arguments skip_unavailable_fragments {H}.
Arguments ignoreerrors {H}.
Arguments progress_hooks {H}.
Arguments noplaylist {H}.

(** The options as the download tool is called with them, the hooks
    reduced to their number. *)
Definition opts_data {H : Type} (o : YdlOpts H) : YdlOpts unit :=
  {| outtmpl := outtmpl o;
     format := format o;
     skip_unavailable_fragments := skip_unavailable_fragments o;
     ignoreerrors := ignoreerrors o;
     progress_hooks := map (fun _ => tt) (progress_hooks o);
     noplaylist := noplaylist o |}.

(** The part of the world the downloader acts on.

    - [files], [dirs]: the regular files and the directories, by path as
      written.
    - [log], [procs], [downloads]: the history of the calls received by
      each collaborator: the [write_*] methods of the logger,
      [subprocess.run] and [YoutubeDL.download].
    - [logger_level]: the class attribute [Logger.debug_level] as the
      [write_*] methods read it.  [None] when it is not a number, so that
      comparing it with an int raises TypeError; otherwise its comparison
      [Logger.debug_level <= n] with an int [n].
    - [makedirs_outcome]: what the operating system answers when asked
      to create a directory that is not there yet, with its parents,
      from the files and directories present: the error it raises (a
      parent is a file, the path names a file under another spelling,
      no permission, ...) or the directories present once the parents
      are made. *)
Record World : Type := mkWorld {
  files : gset string;
  dirs : gset string;
  log : list (LoggerLevel * string);
  procs : list (list string);
  downloads : list (YdlOpts unit * list string);
  logger_level : option (Z -> bool);
  makedirs_outcome : gset string -> gset string -> string -> exn + gset string
}.

Definition set_files (fs : gset string) (w : World) : World :=
  {| files := fs; dirs := dirs w; log := log w; procs := procs w;
     downloads := downloads w; logger_level := logger_level w;
     makedirs_outcome := makedirs_outcome w |}.

Definition set_dirs (ds : gset string) (w : World) : World :=
  {| files := files w; dirs := ds; log := log w; procs := procs w;
     downloads := downloads w; logger_level := logger_level w;
     makedirs_outcome := makedirs_outcome w |}.

Definition add_log (l : LoggerLevel) (msg : string) (w : World) : World :=
  {| files := files w; dirs := dirs w; log := log w ++ [(l, msg)];
     procs := procs w; downloads := downloads w; logger_level := logger_level w;
     makedirs_outcome := makedirs_outcome w |}.

Definition add_proc (cmd : list string) (w : World) : World :=
  {| files := files w; dirs := dirs w; log := log w;
     procs := procs w ++ [cmd]; downloads := downloads w;
     logger_level := logger_level w; makedirs_outcome := makedirs_outcome w |}.

Definition add_download (o : YdlOpts unit) (urls : list string) (w : World) : World :=
  {| files := files w; dirs := dirs w; log := log w; procs := procs w;
     downloads := downloads w ++ [(o, urls)]; logger_level := logger_level w;
     makedirs_outcome := makedirs_outcome w |}.

(** A statement either returns a value or raises. *)
Inductive Outcome (A : Type) : Type :=
| Returned (a : A)
| Raised (e : exn).
Arguments Returned {A}.
Arguments Raised {A}.

(** Python code: a state transformer with exceptions. *)
Definition Py (A : Type) : Type := World -> World * Outcome A.

Definition ret {A : Type} (a : A) : Py A := fun w => (w, Returned a).

Definition raise {A : Type} (e : exn) : Py A := fun w => (w, Raised e).

Definition bind {A B : Type} (m : Py A) (k : A -> Py B) : Py B :=
  fun w =>
    match m w with
    | (w', Returned a) => k a w'
    | (w', Raised e) => (w', Raised e)
    end.

(** [try: body except cls as e: handler e]. *)
Definition try_except {A : Type} (body : Py A) (cls : exn_class)
    (handler : exn -> Py A) : Py A :=
  fun w =>
    match body w with
    | (w', Returned a) => (w', Returned a)
    | (w', Raised e) => if isinstance e cls then handler e w' else (w', Raised e)
    end.

#[global] Instance Py_ret : MRet Py := @ret.
#[global] Instance Py_bind : MBind Py := fun A B k m => bind m k.

(** [d[key]] on a dictionary with string values. *)
Definition getitem (d : gmap string string) (key : string) : Py string :=
  match d !! key with
  | Some v => ret v
  | None => raise (KeyError key)
  end.

(** A call of a [write_*] method of [Logger] at the given level: the
    call is put on record; the method compares [Logger.debug_level] with
    the value of its level, which raises TypeError when the level is not
    a number, and otherwise returns, having handed the message on to the
    logging module or not. *)
Definition Logger_write (level : LoggerLevel) (msg : string) : Py unit :=
  fun w =>
    match logger_level w with
    | Some _ => (add_log level msg w, Returned tt)
    | None => (add_log level msg w, Raised TypeError)
    end.

Definition write_debug (msg : string) : Py unit := Logger_write DEBUG msg.
Definition write_info (msg : string) : Py unit := Logger_write INFO msg.
Definition write_error (msg : string) : Py unit := Logger_write ERROR msg.

(** What [Logger] forwards to the logging module under a configured
    [debug_level]: the calls whose level is at least that level. *)
Definition emitted (debug_level : Z) (calls : list (LoggerLevel * string))
    : list (LoggerLevel * string) :=
  filter (fun c => debug_level <= LoggerLevel_value c.1)%Z calls.

(** The calls on record that the logger has handed on to the logging
    module: those that passed the comparison of their method. *)
Definition handed_on (w : World) : list (LoggerLevel * string) :=
  match logger_level w with
  | Some le => filter (fun c => le (LoggerLevel_value c.1) = true) (log w)
  | None => []
  end.

(** [os.makedirs(path, exist_ok=True)]: the empty path and a path that
    names a regular file are refused, a directory that is there already
    is accepted; otherwise the operating system decides. *)
Definition os_makedirs (path : string) : Py unit :=
  fun w =>
    if String.eqb path "" then (w, Raised (FileNotFoundError path))
    else if bool_decide (path ∈ files w) then (w, Raised (FileExistsError path))
    else if bool_decide (path ∈ dirs w) then (w, Returned tt)
    else
      match makedirs_outcome w (files w) (dirs w) path with
      | inl e => (w, Raised e)
      | inr ds => (set_dirs ({[path]} ∪ ds) w, Returned tt)
      end.

(** [os.remove(path)]. *)
Definition os_remove (path : string) : Py unit :=
  fun w =>
    if bool_decide (path ∈ files w) then (set_files (files w ∖ {[path]}) w, Returned tt)
    else (w, Raised (FileNotFoundError path)).

(** How a program started by [subprocess.run] behaves: from the command
    line and the files present, either the program cannot be started
    ([None]) or it ends with an exit status, leaving the files it leaves. *)
Definition ProcessBehaviour : Type :=
  list string -> gset string -> option (Z * gset string).

(** [subprocess.run(command, check=True)]. *)
Definition subprocess_run_check (run : ProcessBehaviour) (command : list string)
    : Py unit :=
  fun w =>
    let w1 := add_proc command w in
    match run command (files w) with
    | None => (w1, Raised (FileNotFoundError (hd "" command)))
    | Some (returncode, fs) =>
        if (returncode =? 0)%Z then (set_files fs w1, Returned tt)
        else (set_files fs w1, Raised (CalledProcessError returncode command))
    end.

(** What the download tool does during one call of [download]: it writes
    files, reports progress events to the registered hooks, reacting to
    an exception raised by a hook as it sees fit, and in the end returns
    or raises. *)
Inductive YdlProg : Type :=
| YdlReturn
| YdlRaise (e : exn)
| YdlWrite (path : string) (k : YdlProg)
| YdlReport (d : gmap string string) (k : option exn -> YdlProg).

Definition YdlBehaviour : Type := YdlOpts unit -> list string -> YdlProg.

(** The download tool calls the hooks in order, up to the first that
    raises. *)
Fixpoint call_hooks (hooks : list (gmap string string -> Py unit))
    (d : gmap string string) : Py unit :=
  match hooks with
  | [] => ret tt
  | h :: hooks' => h d ;; call_hooks hooks' d
  end.

Fixpoint run_ydl (hooks : list (gmap string string -> Py unit)) (p : YdlProg)
    : Py unit :=
  match p with
  | YdlReturn => ret tt
  | YdlRaise e => raise e
  | YdlWrite path k =>
      fun w => run_ydl hooks k (set_files ({[path]} ∪ files w) w)
  | YdlReport d k =>
      fun w =>
        match call_hooks hooks d w with
        | (w', Returned _) => run_ydl hooks (k None) w'
        | (w', Raised e) => run_ydl hooks (k (Some e)) w'
        end
  end.

(** [with yt_dlp.YoutubeDL(opts) as ydl: ydl.download(urls)]. *)
Definition YoutubeDL_download (ydl : YdlBehaviour)
    (opts : YdlOpts (gmap string string -> Py unit)) (urls : list string)
    : Py unit :=
  fun w =>
    run_ydl (progress_hooks opts) (ydl (opts_data opts) urls)
      (add_download (opts_data opts) urls w).

(** ** [YouTubeDownloader] *)

Section Downloader.

(** The behaviour of the program found under the name [ffmpeg], of the
    download tool, and Python's [str] on exceptions. *)
Variable ffmpeg : ProcessBehaviour.
Variable ydl : YdlBehaviour.
Variable str : exn -> string.

(** The name given to the audio file: [filename.rsplit('.', 1)[0] + '.mp3']. *)
Definition output_filename (filename : string) : string :=
  PyStr.item0 (PyStr.rsplit1 "." filename) +:+ ".mp3".

(** The argument list built by the hook. *)
Definition command (filename : string) : list string :=
  ["ffmpeg"; "-i"; filename; "-vn"; "-ar"; "44100"; "-ac"; "2";
   "-b:a"; "320k"; "-f"; "mp3"; output_filename filename].

Definition _progress_hook (d : gmap string string) (convert_to_mp3 : bool)
    : Py unit :=
  status ← getitem d "status";
  if String.eqb status "finished" then
    (filename ← getitem d "filename";
     write_info ("Downloaded file: " +:+ filename) ;;
     if convert_to_mp3 then
       (write_debug ("Converting " +:+ filename +:+ " to MP3...") ;;
        try_except
          (subprocess_run_check ffmpeg (command filename) ;;
           write_info ("Converted " +:+ filename +:+ " to MP3: "
                       +:+ output_filename filename) ;;
           os_remove filename ;;
           write_debug ("Deleted original file: " +:+ filename))
          subprocess_CalledProcessError
          (fun e =>
             write_error ("Error converting " +:+ filename +:+ " to MP3: "
                          +:+ str e)))
     else ret tt)
  else ret tt.

(** The [ydl_opts] dictionary of [_download_from_youtube]. *)
Definition ydl_opts (path : string) (keep_audio_only isPlaylist : bool)
    : YdlOpts (gmap string string -> Py unit) :=
  {| outtmpl :=
       OsPath.join path "%(playlist_title)s/%(playlist_index)s - %(title)s.%(ext)s";
     format := if keep_audio_only then "bestaudio/best" else "bestvideo+bestaudio/best";
     skip_unavailable_fragments := true;
     ignoreerrors := true;
     progress_hooks := [fun d => _progress_hook d keep_audio_only];
     noplaylist := if isPlaylist then true else false |}.

Definition _download_from_youtube (url path : string)
    (keep_audio_only isPlaylist : bool) : Py unit :=
  try_except
    (write_debug ("Starting download for playlist: " +:+ url) ;;
     os_makedirs path ;;
     YoutubeDL_download ydl (ydl_opts path keep_audio_only isPlaylist) [url])
    Exception
    (fun e =>
       write_error ("Error downloading playlist: " +:+ url +:+ ", " +:+ str e)).

Definition download_video (url path : string) (keep_audio_only : bool) : Py unit :=
  _download_from_youtube url path keep_audio_only false.

Definition download_playlist (url path : string) (keep_audio_only : bool) : Py unit :=
  _download_from_youtube url path keep_audio_only true.

End Downloader.

(** ** The specification's reading of the audio file name

    The specification derives the audio file name "by replacing the
    extension".  [replace_extension] follows these words, the extension
    being what follows the last dot of the basename (the part of the path
    after its last slash); a name without extension gets one. *)
Definition basename (path : string) : string :=
  match PyStr.rsplit_last "/" path with
  | Some (_, base) => base
  | None => path
  end.

Definition replace_extension (path ext : string) : string :=
  match PyStr.rsplit_last "/" path with
  | Some (dir, base) =>
      match PyStr.rsplit_last "." base with
      | Some (stem, _) => dir +:+ "/" +:+ stem +:+ ext
      | None => path +:+ ext
      end
  | None =>
      match PyStr.rsplit_last "." path with
      | Some (stem, _) => stem +:+ ext
      | None => path +:+ ext
      end
  end.

(** The world in which the hook starts ffmpeg: two calls of the logger
    and the call of [subprocess.run] are on record. *)
Definition before_transcode (f : string) (w : World) : World :=
  add_proc (command f)
    (add_log DEBUG ("Converting " +:+ f +:+ " to MP3...")
       (add_log INFO ("Downloaded file: " +:+ f) w)).

(** ** Sample collaborators and events

    Concrete behaviours of the external programs, used to run the
    embedding on examples. *)

(** An ffmpeg that always succeeds and writes the file named by its last
    argument. *)
Definition ffmpeg_ok : ProcessBehaviour :=
  fun cmd fs => Some (0%Z, {[ List.last cmd "" ]} ∪ fs).

(** An ffmpeg that always fails with exit status 1 and writes nothing. *)
Definition ffmpeg_fail : ProcessBehaviour :=
  fun cmd fs => Some (1%Z, fs).

(** No program named ffmpeg is installed. *)
Definition ffmpeg_missing : ProcessBehaviour := fun _ _ => None.

(** A ProgressEvent as the download tool delivers it. *)
Definition event (status filename : string) : gmap string string :=
  <["status" := status]> (<["filename" := filename]> ∅).

(** A download tool that writes one file and reports it finished. *)
Definition ydl_one (filename : string) : YdlBehaviour :=
  fun _ _ => YdlWrite filename (YdlReport (event "finished" filename) (fun _ => YdlReturn)).

(** A download tool that fails at once. *)
Definition ydl_broken : YdlBehaviour :=
  fun _ _ => YdlRaise (DownloadError "unable to download").

(** A rendering of exceptions, standing for Python's [str]. *)
Definition str_class (e : exn) : string :=
  match e with
  | KeyError k => "KeyError: " +:+ k
  | TypeError => "TypeError"
  | CalledProcessError _ _ => "CalledProcessError"
  | FileNotFoundError f => "FileNotFoundError: " +:+ f
  | FileExistsError f => "FileExistsError: " +:+ f
  | NotADirectoryError f => "NotADirectoryError: " +:+ f
  | PermissionError f => "PermissionError: " +:+ f
  | DownloadError m => "DownloadError: " +:+ m
  end.

(** The prefixes of a path that end before one of its slashes: the
    parents the path goes through. *)
Fixpoint path_parents (prefix path : string) : list string :=
  match path with
  | EmptyString => []
  | String c path' =>
      (if Ascii.eqb c "/" && negb (String.eqb prefix "") then [prefix] else [])
      ++ path_parents (prefix +:+ String c EmptyString) path'
  end.

(** An operating system that refuses a directory below a regular file
    and otherwise creates the parents that are missing. *)
Definition makedirs_posix (fs ds : gset string) (path : string) : exn + gset string :=
  match filter (fun p => p ∈ fs) (path_parents "" path) with
  | _ :: _ => inl (NotADirectoryError path)
  | [] => inr (list_to_set (path_parents "" path) ∪ ds)
  end.

(** A world holding the given files and nothing else, with the level of
    the logger as the class body sets it (DEBUG). *)
Definition world_with (fs : list string) : World :=
  {| files := list_to_set fs; dirs := ∅; log := []; procs := []; downloads := [];
     logger_level := Some (Z.leb (LoggerLevel_value DEBUG));
     makedirs_outcome := makedirs_posix |}.

(** The same world once [Logger.debug_level] holds a string. *)
Definition world_level_str (fs : list string) : World :=
  {| files := list_to_set fs; dirs := ∅; log := []; procs := []; downloads := [];
     logger_level := None;
     makedirs_outcome := makedirs_posix |}.

(** A download tool that downloads the given items one after the other:
    it writes each file and reports it finished, and goes on to the next
    item whatever the hooks did with the report (as yt-dlp does under
    'ignoreerrors'). *)
Fixpoint items_prog (items : list string) : YdlProg :=
  match items with
  | [] => YdlReturn
  | f :: items' =>
      YdlWrite f (YdlReport (event "finished" f) (fun _ => items_prog items'))
  end.

Definition ydl_items (items : list string) : YdlBehaviour :=
  fun _ _ => items_prog items.

(** The logger calls made by the hook for one item, by what happens to
    ffmpeg. *)
Definition log_transcode_failed (str : exn -> string) (returncode : Z) (f : string)
    : list (LoggerLevel * string) :=
  [(INFO, "Downloaded file: " +:+ f);
   (DEBUG, "Converting " +:+ f +:+ " to MP3...");
   (ERROR, "Error converting " +:+ f +:+ " to MP3: "
           +:+ str (CalledProcessError returncode (command f)))].

Definition log_transcode_not_started (f : string) : list (LoggerLevel * string) :=
  [(INFO, "Downloaded file: " +:+ f);
   (DEBUG, "Converting " +:+ f +:+ " to MP3...")].

(** The statements of [_download_from_youtube] that come before the
    call of the download tool: the start line and [os.makedirs]. *)
Definition fetch_prelude (url path : string) : Py unit :=
  write_debug ("Starting download for playlist: " +:+ url) ;;
  os_makedirs path.

(** The world in which the download tool starts, from the world the
    prelude leaves. *)
Definition fetch_started_world (ffmpeg : ProcessBehaviour) (str : exn -> string)
    (url path : string) (keep_audio_only isPlaylist : bool) (w : World) : World :=
  add_download (opts_data (ydl_opts ffmpeg str path keep_audio_only isPlaylist)) [url] w.

(** ** [SpotifyDownloader]

    The answers of the Spotify client are parameters: the playlists of
    the user ([sp.current_user_playlists()['items']], by 'name' and
    'id') and the tracks of a playlist ([sp.playlist_tracks(id)['items']],
    each 'track' by its 'name' and the 'name' of each of its 'artists'). *)

Record SpotifyPlaylist : Type := mkSpotifyPlaylist {
  sp_name : string;
  sp_id : string
}.

Record SpotifyTrack : Type := mkSpotifyTrack {
  track_name : string;
  track_artists : list string
}.

(** What can leave [download_playlist_from_spotify]: the IndexError of
    [track['artists'][0]] on a track without artist, or an exception of
    [os.makedirs], of the logger or of the downloader. *)
Inductive spotify_exn : Type :=
| IndexError
| Uncaught (e : exn).

Section Spotify.

Variable ffmpeg : ProcessBehaviour.
Variable ydl : YdlBehaviour.
Variable str : exn -> string.

(** Python's [str.lower]. *)
Variable lower : string -> string.

Variable current_user_playlists : list SpotifyPlaylist.
Variable playlist_tracks : string -> list SpotifyTrack.

(** The search loop: the id of the first playlist whose name matches
    without regard to case. *)
Fixpoint find_playlist_id (playlists : list SpotifyPlaylist) (playlist_name : string)
    : option string :=
  match playlists with
  | [] => None
  | playlist :: playlists' =>
      if String.eqb (lower (sp_name playlist)) (lower playlist_name)
      then Some (sp_id playlist)
      else find_playlist_id playlists' playlist_name
  end.

(** The download loop over the tracks of the playlist. *)
Fixpoint download_tracks (playlist_name download_path : string)
    (tracks : list SpotifyTrack) (w : World) : World * option spotify_exn :=
  match tracks with
  | [] => (w, None)
  | track :: tracks' =>
      match track_artists track with
      | [] => (w, Some IndexError)
      | artist_name :: _ =>
          let search_query := track_name track +:+ " " +:+ artist_name in
          let playlist_path := OsPath.join download_path playlist_name in
          match os_makedirs playlist_path w with
          | (w1, Raised e) => (w1, Some (Uncaught e))
          | (w1, Returned _) =>
              match write_info ("Descargando '" +:+ track_name track +:+ "' de '"
                                +:+ artist_name +:+ "' desde YouTube") w1 with
              | (w2, Raised e) => (w2, Some (Uncaught e))
              | (w2, Returned _) =>
                  match download_video ffmpeg ydl str ("ytsearch:" +:+ search_query)
                          playlist_path true w2 with
                  | (w3, Raised e) => (w3, Some (Uncaught e))
                  | (w3, Returned _) =>
                      download_tracks playlist_name download_path tracks' w3
                  end
              end
          end
      end
  end.

Definition download_playlist_from_spotify (playlist_name download_path : string)
    (w : World) : World * option spotify_exn :=
  let not_found :=
    match write_error ("No se encontró la lista de reproducción: " +:+ playlist_name)
            w with
    | (w', Raised e) => (w', Some (Uncaught e))
    | (w', Returned _) => (w', None)
    end in
  match find_playlist_id current_user_playlists playlist_name with
  | None => not_found
  | Some playlist_id =>
      if String.eqb playlist_id "" then not_found
      else download_tracks playlist_name download_path
             (playlist_tracks playlist_id) w
  end.

(** The call of the download tool made for one track. *)
Definition spotify_request (playlist_name download_path : string)
    (track : SpotifyTrack) : YdlOpts unit * list string :=
  (opts_data (ydl_opts ffmpeg str (OsPath.join download_path playlist_name) true false),
   ["ytsearch:" +:+ track_name track +:+ " " +:+ hd "" (track_artists track)]).

End Spotify.

(** ** [Logger]

    The class attributes [debug_level] and [log_file_path] hold whatever
    the configuration file gives, so they are JSON values.  The text of
    the configuration is read and decoded by the runtime: its result is
    an input of [load_configuration]. *)

(** [s.rstrip(c)] for a character [c]. *)
Fixpoint str_rstrip (c : ascii) (s : string) : string :=
  match s with
  | EmptyString => EmptyString
  | String x s' =>
      match str_rstrip c s' with
      | EmptyString => if Ascii.eqb x c then EmptyString else String x EmptyString
      | r => String x r
      end
  end.

(** [s == c * len(s)] for a character [c]. *)
Fixpoint str_all (c : ascii) (s : string) : bool :=
  match s with
  | EmptyString => true
  | String x s' => Ascii.eqb x c && str_all c s'
  end.

(** [posixpath.dirname]. *)
Definition os_path_dirname (p : string) : string :=
  let head :=
    match PyStr.rsplit_last "/" p with
    | Some (h, _) => h +:+ "/"
    | None => ""
    end in
  if negb (String.eqb head "") && negb (str_all "/" head)
  then str_rstrip "/" head
  else head.

Module Logger.

Section Logger.

(** Python floats, and [x <= n] between a float and an int. *)
Variable float : Type.
Variable float_le_int : float -> Z -> bool.

#[local] Unset Elimination Schemes.

(** What [json.load] returns. *)
Inductive json : Type :=
| JNull
| JBool (b : bool)
| JInt (n : Z)
| JFloat (x : float)
| JStr (s : string)
| JList (l : list json)
| JDict (d : gmap string json).

#[local] Set Elimination Schemes.

(** The class attributes, the records handed to the logging module, and
    the lines printed. *)
Record State : Type := mkState {
  debug_level : json;
  log_file_path : json;
  records : list (LoggerLevel * string);
  stdout : list string
}.

Inductive error : Type :=
| AttributeError
| TypeError
| OpenError
| OsError (e : exn).

(** The outcome of opening and decoding the configuration file: the two
    failures the code catches (with their text), any other failure of
    [open] or of the decoding, or the decoded value. *)
Inductive ConfigRead : Type :=
| ReadFileNotFound (msg : string)
| ReadJSONDecodeError (msg : string)
| ReadOtherError
| ReadOk (config : json).

(** [d.get(key, dflt)]. *)
Definition get (d : gmap string json) (key : string) (dflt : json) : json :=
  default dflt (d !! key).

Definition load_configuration (config_path : string) (read : ConfigRead)
    (s : State) : State * option error :=
  let fallback msg :=
    ({| debug_level := JInt (LoggerLevel_value DEBUG);
        log_file_path := JStr "./logs/logFile.log";
        records := records s;
        stdout := stdout s ++ ["Error al leer " +:+ config_path +:+ ": " +:+ msg] |},
     None) in
  match read with
  | ReadOk (JDict config) =>
      match get config "debugConfig" (JDict ∅) with
      | JDict debug_config =>
          ({| debug_level :=
                get debug_config "debugLevel" (JInt (LoggerLevel_value DEBUG));
              log_file_path :=
                get debug_config "logFilePath" (JStr "./logs/logFile.log");
              records := records s;
              stdout := stdout s |}, None)
      | _ => (s, Some AttributeError)
      end
  | ReadOk _ => (s, Some AttributeError)
  | ReadFileNotFound msg => fallback msg
  | ReadJSONDecodeError msg => fallback msg
  | ReadOtherError => (s, Some OpenError)
  end.

(** [Logger.debug_level <= n]: defined on numbers (a bool is an int),
    a TypeError ([None]) on every other value. *)
Definition le (v : json) (n : Z) : option bool :=
  match v with
  | JBool b => Some (Z.b2z b <=? n)%Z
  | JInt z => Some (z <=? n)%Z
  | JFloat x => Some (float_le_int x n)
  | JNull | JStr _ | JList _ | JDict _ => None
  end.

(** The common shape of the five [write_*] methods. *)
Definition write (level : LoggerLevel) (message : string) (s : State)
    : State * option error :=
  match le (debug_level s) (LoggerLevel_value level) with
  | None => (s, Some TypeError)
  | Some true =>
      ({| debug_level := debug_level s;
          log_file_path := log_file_path s;
          records := records s ++ [(level, message)];
          stdout := stdout s |}, None)
  | Some false => (s, None)
  end.

Definition write_debug := write DEBUG.
Definition write_info := write INFO.
Definition write_warning := write WARNING.
Definition write_error := write ERROR.
Definition write_critical := write CRITICAL.

Definition get_debug_level (s : State) : json := debug_level s.

(** The class attributes as the class body sets them, nothing logged or
    printed yet. *)
Definition initial : State :=
  {| debug_level := JInt (LoggerLevel_value DEBUG);
     log_file_path := JStr "logFile.log";
     records := [];
     stdout := [] |}.

(** A sequence of calls of the [write_*] methods, up to the first that
    raises. *)
Fixpoint replay (calls : list (LoggerLevel * string)) (s : State)
    : State * option error :=
  match calls with
  | [] => (s, None)
  | (level, message) :: calls' =>
      match write level message s with
      | (s', None) => replay calls' s'
      | (s', Some e) => (s', Some e)
      end
  end.

(** [Logger.__init__]; [logging_basicConfig] stands for the call of
    [logging.basicConfig] on the log file. *)
Definition init (logging_basicConfig : string -> Py unit)
    (log_file config_json : string) (read : ConfigRead) (s : State) (w : World)
    : State * World * option error :=
  match load_configuration config_json read s with
  | (s1, Some e) => (s1, w, Some e)
  | (s1, None) =>
      match os_makedirs (os_path_dirname log_file) w with
      | (w1, Raised e) => (s1, w1, Some (OsError e))
      | (w1, Returned _) =>
          match logging_basicConfig log_file w1 with
          | (w2, Raised e) => (s1, w2, Some (OsError e))
          | (w2, Returned _) => (s1, w2, None)
          end
      end
  end.

End Logger.

Arguments JNull {float}.
Arguments JBool {float}.
Arguments JInt {float}.
Arguments JFloat {float}.
Arguments JStr {float}.
Arguments JList {float}.
Arguments JDict {float}.
Arguments mkState {float}.
Arguments debug_level {float}.
Arguments log_file_path {float}.
Arguments records {float}.
Arguments stdout {float}.
Arguments ReadFileNotFound {float}.
Arguments ReadJSONDecodeError {float}.
Arguments ReadOtherError {float}.
Arguments ReadOk {float}.
Arguments initial {float}.
Arguments get {float}.
Arguments load_configuration {float}.
Arguments le {float}.
Arguments write {float}.
Arguments write_debug {float}.
Arguments write_info {float}.
Arguments write_warning {float}.
Arguments write_error {float}.
Arguments write_critical {float}.
Arguments get_debug_level {float}.
Arguments replay {float}.
Arguments init {float}.

End Logger.

(** The level of the logger as the world of the downloader holds it,
    from the value of the class attribute: the comparison of a number
    (a bool is an int), nothing for any other value. *)
Definition level_of {float : Type} (float_le_int : float -> Z -> bool)
    (v : Logger.json float) : option (Z -> bool) :=
  match v with
  | Logger.JBool b => Some (Z.leb (Z.b2z b))
  | Logger.JInt z => Some (Z.leb z)
  | Logger.JFloat x => Some (float_le_int x)
  | Logger.JNull | Logger.JStr _ | Logger.JList _ | Logger.JDict _ => None
  end.

(** ** Sample answers of the Spotify client and of the runtime *)

(** [str.lower] on ASCII text. *)
Definition ascii_lower (c : ascii) : ascii :=
  let n := nat_of_ascii c in
  if (65 <=? n)%nat && (n <=? 90)%nat then ascii_of_nat (n + 32) else c.

Fixpoint lower_ascii (s : string) : string :=
  match s with
  | EmptyString => EmptyString
  | String c s' => String (ascii_lower c) (lower_ascii s')
  end.

Definition sample_playlists : list SpotifyPlaylist :=
  [ {| sp_name := "Road Trip"; sp_id := "37i9" |};
    {| sp_name := "Focus"; sp_id := "5Xyz" |} ].

Definition sample_tracks (playlist_id : string) : list SpotifyTrack :=
  if String.eqb playlist_id "37i9" then
    [ {| track_name := "Song A"; track_artists := ["Artist One"; "Guest"] |};
      {| track_name := "Song B"; track_artists := ["Artist Two"] |} ]
  else
    [ {| track_name := "Local file"; track_artists := [] |} ].

(** A runtime in which no float ever appears. *)
Definition no_float_le_int (x : Empty_set) (n : Z) : bool :=
  match x with end.

(** [logging.basicConfig] creating the log file. *)
Definition basicConfig_creates (log_file : string) : Py unit :=
  fun w => (set_files ({[log_file]} ∪ files w) w, Returned tt).

(** * Properties *)

(** ** Strings *)

Lemma append_empty_l (s : string) : "" +:+ s = s.
Proof. reflexivity. Qed.

Lemma append_String (c : ascii) (a b : string) :
  String c a +:+ b = String c (a +:+ b).
Proof. reflexivity. Qed.

Lemma append_empty_r (s : string) : s +:+ "" = s.
Proof. induction s as [|c s IH]; [reflexivity|]. rewrite append_String, IH. reflexivity. Qed.

Lemma append_assoc (a b c : string) : (a +:+ b) +:+ c = a +:+ (b +:+ c).
Proof.
  induction a as [|x a IH]; [reflexivity|]. rewrite !append_String, IH. reflexivity.
Qed.

Lemma rsplit_last_app (sep : ascii) (a b : string) :
  PyStr.rsplit_last sep (a +:+ b) =
  match PyStr.rsplit_last sep b with
  | Some (h, t) => Some (a +:+ h, t)
  | None =>
      match PyStr.rsplit_last sep a with
      | Some (h, t) => Some (h, t +:+ b)
      | None => None
      end
  end.
Proof.
  induction a as [|c a IH].
  - rewrite append_empty_l. simpl.
    destruct (PyStr.rsplit_last sep b) as [[h t]|]; reflexivity.
  - rewrite append_String. simpl. rewrite IH.
    destruct (PyStr.rsplit_last sep b) as [[h t]|]; [reflexivity|].
    destruct (PyStr.rsplit_last sep a) as [[h t]|]; [reflexivity|].
    destruct (Ascii.eqb c sep); reflexivity.
Qed.

Lemma rsplit_last_None (sep : ascii) (s : string) :
  PyStr.rsplit_last sep s = None <-> PyStr.contains sep s = false.
Proof.
  induction s as [|c s IH]; simpl; [tauto|].
  destruct (PyStr.rsplit_last sep s) as [[h t]|].
  - split; [discriminate|]. intros H. apply orb_false_elim in H as [_ H].
    apply IH in H. discriminate.
  - destruct (Ascii.eqb c sep); simpl; [split; discriminate|].
    split; intros _; [|reflexivity]. apply IH. reflexivity.
Qed.

Lemma rsplit_last_Some (sep : ascii) (s h t : string) :
  PyStr.rsplit_last sep s = Some (h, t) ->
  s = h +:+ String sep t /\ PyStr.contains sep t = false.
Proof.
  revert h t. induction s as [|c s IH]; simpl; intros h t; [discriminate|].
  destruct (PyStr.rsplit_last sep s) as [[h' t']|] eqn:E.
  - intros [= <- <-]. destruct (IH _ _ eq_refl) as [-> Ht].
    split; [reflexivity|exact Ht].
  - destruct (Ascii.eqb_spec c sep) as [->|_]; [|discriminate].
    intros [= <- <-]. split; [reflexivity|]. apply rsplit_last_None. exact E.
Qed.

Lemma rsplit_last_at (sep : ascii) (h t : string) :
  PyStr.contains sep t = false ->
  PyStr.rsplit_last sep (h +:+ String sep t) = Some (h, t).
Proof.
  intros Ht. rewrite rsplit_last_app. simpl.
  apply rsplit_last_None in Ht. rewrite Ht, Ascii.eqb_refl.
  rewrite append_empty_r. reflexivity.
Qed.

Example rsplit1_webm :
  PyStr.rsplit1 "." "./out/1 - Title.webm" = ["./out/1 - Title"; "webm"]
  /\ PyStr.rsplit1 "." "Title" = ["Title"]
  /\ PyStr.rsplit1 "." "a.tar.gz" = ["a.tar"; "gz"].
Proof. repeat split. Qed.

Example join_destination :
  OsPath.join "./out" "a/b" = "./out/a/b"
  /\ OsPath.join "./out/" "a/b" = "./out/a/b"
  /\ OsPath.join "" "a/b" = "a/b"
  /\ OsPath.join "./out" "/a/b" = "/a/b".
Proof. repeat split. Qed.

Lemma output_filename_split (stem ext : string) :
  PyStr.contains "." ext = false ->
  output_filename (stem +:+ "." +:+ ext) = stem +:+ ".mp3".
Proof.
  intros Hext. unfold output_filename, PyStr.rsplit1.
  change (stem +:+ "." +:+ ext) with (stem +:+ String "." ext).
  rewrite (rsplit_last_at _ _ _ Hext). reflexivity.
Qed.

Lemma output_filename_nodot (f : string) :
  PyStr.contains "." f = false -> output_filename f = f +:+ ".mp3".
Proof.
  intros Hf. unfold output_filename, PyStr.rsplit1.
  apply rsplit_last_None in Hf. rewrite Hf. reflexivity.
Qed.

(** On a path whose basename has a dot, the name built by the code is the
    path with its extension replaced. *)
Lemma output_filename_replace_extension (f : string) :
  PyStr.contains "." (basename f) = true ->
  output_filename f = replace_extension f ".mp3".
Proof.
  unfold basename, replace_extension, output_filename, PyStr.rsplit1.
  destruct (PyStr.rsplit_last "/" f) as [[dir base]|] eqn:Hslash.
  - intros Hdot. apply rsplit_last_Some in Hslash as [-> _].
    destruct (PyStr.rsplit_last "." base) as [[stem ext]|] eqn:Hbase.
    + change (String "/" base) with ("/" +:+ base).
      rewrite <- append_assoc, rsplit_last_app, Hbase. simpl.
      rewrite !append_assoc. reflexivity.
    + apply rsplit_last_None in Hbase. congruence.
  - intros Hdot.
    destruct (PyStr.rsplit_last "." f) as [[stem ext]|] eqn:Hbase; [reflexivity|].
    apply rsplit_last_None in Hbase. congruence.
Qed.

(** ** The progress hook *)

Section HookProperties.

Variable ffmpeg : ProcessBehaviour.
Variable str : exn -> string.

Local Abbreviation hook := (_progress_hook ffmpeg str).

Lemma hook_status_missing (d : gmap string string) (c : bool) (w : World) :
  d !! "status" = None -> hook d c w = (w, Raised (KeyError "status")).
Proof.
  intros Hs. unfold _progress_hook, mbind, Py_bind, bind, getitem.
  rewrite Hs. reflexivity.
Qed.

Lemma hook_not_finished (d : gmap string string) (s : string) (c : bool) (w : World) :
  d !! "status" = Some s -> s <> "finished" -> hook d c w = (w, Returned tt).
Proof.
  intros Hs Hne. unfold _progress_hook, mbind, Py_bind, bind, getitem.
  rewrite Hs. apply String.eqb_neq in Hne. unfold ret at 1. rewrite Hne. reflexivity.
Qed.

Lemma hook_filename_missing (d : gmap string string) (c : bool) (w : World) :
  d !! "status" = Some "finished" -> d !! "filename" = None ->
  hook d c w = (w, Raised (KeyError "filename")).
Proof.
  intros Hs Hf. unfold _progress_hook, mbind, Py_bind, bind, getitem.
  rewrite Hs, Hf. reflexivity.
Qed.

(** When the level of the logger is not a number, the first call of the
    logger raises TypeError, which nothing in the hook catches. *)
Lemma hook_level_not_number (d : gmap string string) (f : string) (c : bool)
    (w : World) :
  d !! "status" = Some "finished" -> d !! "filename" = Some f ->
  logger_level w = None ->
  hook d c w = (add_log INFO ("Downloaded file: " +:+ f) w, Raised TypeError).
Proof.
  intros Hs Hf Hlevel.
  unfold _progress_hook, mbind, Py_bind, bind, getitem, write_info, Logger_write.
  rewrite Hs, Hf. simpl. rewrite Hlevel. reflexivity.
Qed.

Lemma hook_finished_video (d : gmap string string) (f : string) (w : World) :
  d !! "status" = Some "finished" -> d !! "filename" = Some f ->
  logger_level w <> None ->
  hook d false w = (add_log INFO ("Downloaded file: " +:+ f) w, Returned tt).
Proof.
  intros Hs Hf Hlevel.
  unfold _progress_hook, mbind, Py_bind, bind, getitem, write_info, Logger_write.
  rewrite Hs, Hf. simpl.
  destruct (logger_level w); [reflexivity|contradiction].
Qed.

Lemma hook_finished_audio (d : gmap string string) (f : string) (w : World) :
  d !! "status" = Some "finished" -> d !! "filename" = Some f ->
  logger_level w <> None ->
  hook d true w =
  match ffmpeg (command f) (files w) with
  | None => (before_transcode f w, Raised (FileNotFoundError "ffmpeg"))
  | Some (returncode, fs) =>
      if (returncode =? 0)%Z then
        let w1 :=
          add_log INFO ("Converted " +:+ f +:+ " to MP3: " +:+ output_filename f)
            (set_files fs (before_transcode f w)) in
        if bool_decide (f ∈ fs) then
          (add_log DEBUG ("Deleted original file: " +:+ f)
             (set_files (fs ∖ {[f]}) w1), Returned tt)
        else (w1, Raised (FileNotFoundError f))
      else
        (add_log ERROR
           ("Error converting " +:+ f +:+ " to MP3: "
            +:+ str (CalledProcessError returncode (command f)))
           (set_files fs (before_transcode f w)), Returned tt)
  end.
Proof.
  intros Hs Hf Hlevel.
  unfold _progress_hook, mbind, Py_bind, bind, getitem, try_except,
    subprocess_run_check, os_remove, before_transcode,
    write_info, write_debug, write_error, Logger_write.
  rewrite Hs, Hf. simpl.
  destruct (logger_level w) as [le|] eqn:Hle; [|contradiction].
  simpl. rewrite Hle. simpl.
  destruct (ffmpeg (command f) (files w)) as [[rc fs]|]; [|reflexivity].
  destruct (rc =? 0)%Z; simpl; rewrite ?Hle; simpl; [|reflexivity].
  destruct (bool_decide (f ∈ fs)); simpl; rewrite ?Hle; reflexivity.
Qed.

(** When the hook returns and when it raises, for an event that carries
    the keys the hook reads. *)
Lemma hook_raises_iff (d : gmap string string) (s f : string) (c : bool) (w : World) :
  d !! "status" = Some s -> d !! "filename" = Some f ->
  (exists e, (hook d c w).2 = Raised e) <->
  s = "finished" /\
  (logger_level w = None \/
   c = true /\
   (ffmpeg (command f) (files w) = None \/
    exists fs, ffmpeg (command f) (files w) = Some (0%Z, fs) /\ f ∉ fs)).
Proof.
  intros Hs Hf. destruct (decide (s = "finished")) as [->|Hne].
  - destruct (logger_level w) as [le|] eqn:Hlevel.
    + assert (Hnum : logger_level w <> None) by (rewrite Hlevel; discriminate).
      destruct c.
      * rewrite (hook_finished_audio d f w Hs Hf Hnum).
        destruct (ffmpeg (command f) (files w)) as [[rc fs]|] eqn:Hrun.
        -- destruct (Z.eqb_spec rc 0) as [->|Hrc]; simpl.
           ++ destruct (bool_decide_reflect (f ∈ fs)) as [Hin|Hin]; simpl.
              ** split; [intros [e He]; discriminate|].
                 intros (_ & [?|(_ & [?|(fs' & [= <-] & ?)])]);
                   [discriminate|discriminate|contradiction].
              ** split; [|eauto]. intros _. split; [reflexivity|].
                 right. split; [reflexivity|]. right. eauto.
           ++ split; [intros [e He]; discriminate|].
              intros (_ & [?|(_ & [?|(fs' & [= ? _] & _)])]);
                [discriminate|discriminate|contradiction].
        -- simpl. split; [|eauto]. intros _. split; [reflexivity|].
           right. split; [reflexivity|]. left. reflexivity.
      * rewrite (hook_finished_video d f w Hs Hf Hnum). simpl.
        split; [intros [e He]; discriminate|].
        intros (_ & [?|(? & _)]); discriminate.
    + rewrite (hook_level_not_number d f c w Hs Hf Hlevel). simpl.
      split; [|eauto]. intros _. split; [reflexivity|]. left. reflexivity.
  - rewrite (hook_not_finished d s c w Hs Hne). simpl.
    split; [intros [e He]; discriminate|]. intros (? & _). contradiction.
Qed.

(** A non-zero exit status of ffmpeg is absorbed by the hook. *)
Lemma hook_absorbs_CalledProcessError (d : gmap string string) (f : string)
    (w : World) (returncode : Z) (fs : gset string) :
  d !! "status" = Some "finished" -> d !! "filename" = Some f ->
  logger_level w <> None ->
  ffmpeg (command f) (files w) = Some (returncode, fs) -> returncode <> 0%Z ->
  (hook d true w).2 = Returned tt.
Proof.
  intros Hs Hf Hlevel Hrun Hrc. rewrite (hook_finished_audio d f w Hs Hf Hlevel), Hrun.
  apply Z.eqb_neq in Hrc. rewrite Hrc. reflexivity.
Qed.

(** C8: for every ProgressEvent whose status is not "finished" the hook
    is a no-op: it returns normally and leaves the whole world (files,
    directories, logger calls, started processes, download calls) as it
    was, whether or not audio-only conversion was requested. *)
Theorem hook_noop_unless_finished (d : gmap string string) (s : string)
    (convert_to_mp3 : bool) (w : World) :
  d !! "status" = Some s -> s <> "finished" ->
  hook d convert_to_mp3 w = (w, Returned tt).
Proof. apply hook_not_finished. Qed.

(** For a "finished" event with filename [f] in audio-only mode, with a
    logger whose level is a number, the hook calls [subprocess.run]
    exactly once, with the argument list below, whose last element is
    the text of [f] before its last dot followed by ".mp3"; this is [f]
    with its extension replaced whenever the basename of [f] has a
    dot. *)
Lemma hook_invokes_ffmpeg_once (d : gmap string string) (f : string) (w : World) :
  d !! "status" = Some "finished" -> d !! "filename" = Some f ->
  logger_level w <> None ->
  let o := output_filename f in
  procs (hook d true w).1 =
    (procs w ++ [["ffmpeg"; "-i"; f; "-vn"; "-ar"; "44100"; "-ac"; "2";
                  "-b:a"; "320k"; "-f"; "mp3"; o]])%list
  /\ (PyStr.contains "." (basename f) = true -> o = replace_extension f ".mp3").
Proof.
  intros Hs Hf Hlevel o. split.
  - rewrite (hook_finished_audio d f w Hs Hf Hlevel).
    destruct (ffmpeg (command f) (files w)) as [[rc fs]|]; [|reflexivity].
    destruct (rc =? 0)%Z; [|reflexivity].
    simpl. destruct (bool_decide (f ∈ fs)); reflexivity.
  - apply output_filename_replace_extension.
Qed.

(** For a "finished" event in audio-only mode on which ffmpeg could be
    started and left the files [fs], with a logger whose level is a
    number: after a zero exit the files are [fs] without the original;
    after a non-zero exit the hook returns normally, the error is handed
    to the logger, and the files are exactly [fs]. *)
Lemma hook_transcode_outcome (d : gmap string string) (f : string) (w : World)
    (returncode : Z) (fs : gset string) :
  d !! "status" = Some "finished" -> d !! "filename" = Some f ->
  logger_level w <> None ->
  ffmpeg (command f) (files w) = Some (returncode, fs) ->
  let r := hook d true w in
  (returncode = 0%Z -> files r.1 = fs ∖ {[f]})
  /\ (returncode <> 0%Z ->
     r.2 = Returned tt /\ files r.1 = fs /\
     log r.1 = (log w ++
       [(INFO, "Downloaded file: " +:+ f);
        (DEBUG, "Converting " +:+ f +:+ " to MP3...");
        (ERROR, "Error converting " +:+ f +:+ " to MP3: "
                +:+ str (CalledProcessError returncode (command f)))])%list).
Proof.
  intros Hs Hf Hlevel Hrun r. subst r.
  rewrite (hook_finished_audio d f w Hs Hf Hlevel), Hrun. split.
  - intros ->. simpl.
    destruct (bool_decide_reflect (f ∈ fs)) as [Hin|Hin]; simpl; [reflexivity|].
    apply set_eq. intros x. rewrite elem_of_difference, elem_of_singleton.
    split; [|tauto]. intros Hx. split; [exact Hx|]. intros ->. contradiction.
  - intros Hrc. apply Z.eqb_neq in Hrc. rewrite Hrc. simpl.
    repeat split. rewrite <- !app_assoc. reflexivity.
Qed.

End HookProperties.

(** ** The download tool driving the hooks *)

Section Frame.

Context {X : Type} (proj : World -> X).
Hypothesis proj_set_files : forall fs w, proj (set_files fs w) = proj w.

Lemma call_hooks_frame (hooks : list (gmap string string -> Py unit)) :
  (forall h d w, h ∈ hooks -> proj (h d w).1 = proj w) ->
  forall d w, proj (call_hooks hooks d w).1 = proj w.
Proof.
  induction hooks as [|h hooks IH]; intros Hh d w; [reflexivity|].
  simpl. unfold mbind, Py_bind, bind.
  pose proof (Hh h d w (list_elem_of_here _ _)) as Hhead.
  destruct (h d w) as [w' [[]|e]]; simpl in *; [|exact Hhead].
  rewrite IH; [exact Hhead|]. intros h' d' w'' Hin. apply Hh. right. exact Hin.
Qed.

Lemma run_ydl_frame (hooks : list (gmap string string -> Py unit)) :
  (forall h d w, h ∈ hooks -> proj (h d w).1 = proj w) ->
  forall p w, proj (run_ydl hooks p w).1 = proj w.
Proof.
  intros Hh p. induction p as [|e|path k IH|d k IH]; intros w; simpl.
  - reflexivity.
  - reflexivity.
  - rewrite IH. apply proj_set_files.
  - pose proof (call_hooks_frame hooks Hh d w) as Hcall.
    destruct (call_hooks hooks d w) as [w' [[]|e]]; simpl in Hcall;
      rewrite IH; exact Hcall.
Qed.

End Frame.

(** ** The fetcher *)

Lemma isinstance_Exception (e : exn) : isinstance e Exception = true.
Proof. destruct e; reflexivity. Qed.

Lemma Logger_write_eq (level : LoggerLevel) (msg : string) (w : World) :
  Logger_write level msg w =
  (add_log level msg w,
   match logger_level w with Some _ => Returned tt | None => Raised TypeError end).
Proof. unfold Logger_write. destruct (logger_level w); reflexivity. Qed.

Lemma set_dirs_same (w : World) : set_dirs (dirs w) w = w.
Proof. destruct w; reflexivity. Qed.

Lemma os_makedirs_cases (path : string) (w : World) :
  (exists e, os_makedirs path w = (w, Raised e))
  \/ (exists ds, path <> "" /\ (path ∉ files w) /\ path ∈ ds
               /\ os_makedirs path w = (set_dirs ds w, Returned tt)).
Proof.
  unfold os_makedirs.
  destruct (String.eqb_spec path "") as [->|Hpath]; [left; eauto|].
  destruct (bool_decide_reflect (path ∈ files w)) as [Hfile|Hfile]; [left; eauto|].
  destruct (bool_decide_reflect (path ∈ dirs w)) as [Hdir|Hdir].
  { right. exists (dirs w). rewrite set_dirs_same. repeat split; assumption. }
  destruct (makedirs_outcome w (files w) (dirs w) path) as [e|ds]; [left; eauto|].
  right. exists ({[path]} ∪ ds). repeat split; try assumption.
  apply elem_of_union_l, elem_of_singleton. reflexivity.
Qed.

(** A directory that [os.makedirs] has made is accepted again. *)
Lemma os_makedirs_again (path : string) (w : World) :
  path <> "" -> path ∉ files w -> path ∈ dirs w ->
  os_makedirs path w = (w, Returned tt).
Proof.
  intros Hpath Hfile Hdir. unfold os_makedirs.
  rewrite (proj2 (String.eqb_neq _ _) Hpath).
  rewrite bool_decide_eq_false_2 by exact Hfile.
  rewrite bool_decide_eq_true_2 by exact Hdir. reflexivity.
Qed.

(** The prelude of a fetch: what it leaves and when it returns. *)
Lemma fetch_prelude_cases (url path : string) (w : World) :
  let w0 := add_log DEBUG ("Starting download for playlist: " +:+ url) w in
  (exists e, fetch_prelude url path w = (w0, Raised e))
  \/ (exists ds, logger_level w <> None
               /\ os_makedirs path w0 = (set_dirs ds w0, Returned tt)
               /\ fetch_prelude url path w = (set_dirs ds w0, Returned tt)).
Proof.
  cbv zeta. unfold fetch_prelude, mbind, Py_bind, bind, write_debug.
  rewrite Logger_write_eq.
  destruct (logger_level w) as [le|] eqn:Hle; [|left; eauto].
  destruct (os_makedirs_cases path
              (add_log DEBUG ("Starting download for playlist: " +:+ url) w))
    as [[e He]|(ds & _ & _ & _ & Hds)].
  - left. exists e. exact He.
  - right. exists ds. split; [discriminate|]. split; exact Hds.
Qed.

Section FetcherProperties.

Variable ffmpeg : ProcessBehaviour.
Variable ydl : YdlBehaviour.
Variable str : exn -> string.

Local Abbreviation hook := (_progress_hook ffmpeg str).
Local Abbreviation fetch := (_download_from_youtube ffmpeg ydl str).
Local Abbreviation opts := (ydl_opts ffmpeg str).

(** A projection of the world that the logger, the file operations and
    ffmpeg leave alone is left alone by the hook. *)
Lemma hook_frame {X : Type} (proj : World -> X) :
  (forall l m w, proj (add_log l m w) = proj w) ->
  (forall fs w, proj (set_files fs w) = proj w) ->
  (forall cmd w, proj (add_proc cmd w) = proj w) ->
  forall d c w, proj (hook d c w).1 = proj w.
Proof.
  intros Hlog Hfiles Hproc d c w.
  destruct (d !! "status") as [s|] eqn:Hs;
    [|rewrite hook_status_missing by exact Hs; reflexivity].
  destruct (decide (s = "finished")) as [->|Hne];
    [|rewrite (hook_not_finished _ _ d s c w Hs Hne); reflexivity].
  destruct (d !! "filename") as [f|] eqn:Hf;
    [|rewrite hook_filename_missing by assumption; reflexivity].
  destruct (logger_level w) as [le|] eqn:Hle;
    [|rewrite (hook_level_not_number _ _ d f c w Hs Hf Hle); apply Hlog].
  assert (Hnum : logger_level w <> None) by (rewrite Hle; discriminate).
  destruct c; [|rewrite (hook_finished_video _ _ d f w Hs Hf Hnum); apply Hlog].
  rewrite (hook_finished_audio _ _ d f w Hs Hf Hnum). unfold before_transcode.
  destruct (ffmpeg (command f) (files w)) as [[rc fs]|];
    [|simpl; rewrite Hproc, !Hlog; reflexivity].
  destruct (rc =? 0)%Z;
    [|simpl; rewrite Hlog, Hfiles, Hproc, !Hlog; reflexivity].
  simpl. destruct (bool_decide (f ∈ fs)); simpl;
    rewrite ?Hlog, ?Hfiles, ?Hlog, ?Hfiles, ?Hproc, ?Hlog; reflexivity.
Qed.

Lemma hook_frame_downloads (d : gmap string string) (c : bool) (w : World) :
  downloads (hook d c w).1 = downloads w.
Proof. apply (hook_frame downloads); reflexivity. Qed.

Lemma hook_frame_level (d : gmap string string) (c : bool) (w : World) :
  logger_level (hook d c w).1 = logger_level w.
Proof. apply (hook_frame logger_level); reflexivity. Qed.

Lemma hook_frame_dirs (d : gmap string string) (c : bool) (w : World) :
  dirs (hook d c w).1 = dirs w.
Proof. apply (hook_frame dirs); reflexivity. Qed.

(** Without audio-only conversion the hook starts no process, whatever
    the event holds. *)
Lemma hook_frame_procs (d : gmap string string) (w : World) :
  procs (hook d false w).1 = procs w.
Proof.
  destruct (d !! "status") as [s|] eqn:Hs;
    [|rewrite hook_status_missing by exact Hs; reflexivity].
  destruct (decide (s = "finished")) as [->|Hne];
    [|rewrite (hook_not_finished _ _ d s false w Hs Hne); reflexivity].
  destruct (d !! "filename") as [f|] eqn:Hf;
    [|rewrite hook_filename_missing by assumption; reflexivity].
  destruct (logger_level w) as [le|] eqn:Hle;
    [|rewrite (hook_level_not_number _ _ d f false w Hs Hf Hle); reflexivity].
  rewrite (hook_finished_video _ _ d f w Hs Hf); [reflexivity|].
  rewrite Hle. discriminate.
Qed.

Lemma hook_frame_files_video (d : gmap string string) (w : World) :
  files (hook d false w).1 = files w.
Proof.
  destruct (d !! "status") as [s|] eqn:Hs;
    [|rewrite hook_status_missing by exact Hs; reflexivity].
  destruct (decide (s = "finished")) as [->|Hne];
    [|rewrite (hook_not_finished _ _ d s false w Hs Hne); reflexivity].
  destruct (d !! "filename") as [f|] eqn:Hf;
    [|rewrite hook_filename_missing by assumption; reflexivity].
  destruct (logger_level w) as [le|] eqn:Hle;
    [|rewrite (hook_level_not_number _ _ d f false w Hs Hf Hle); reflexivity].
  rewrite (hook_finished_video _ _ d f w Hs Hf); [reflexivity|].
  rewrite Hle. discriminate.
Qed.

(** [_download_from_youtube], statement by statement. *)
Lemma fetch_unfold (url path : string) (a p : bool) (w : World) :
  fetch url path a p w =
  let caught e w' :=
    write_error ("Error downloading playlist: " +:+ url +:+ ", " +:+ str e) w' in
  match fetch_prelude url path w with
  | (w1, Raised e) => caught e w1
  | (w1, Returned _) =>
      match YoutubeDL_download ydl (opts path a p) [url] w1 with
      | (w', Returned _) => (w', Returned tt)
      | (w', Raised e) => caught e w'
      end
  end.
Proof.
  unfold _download_from_youtube, fetch_prelude, try_except, mbind, Py_bind, bind.
  cbv zeta.
  destruct (write_debug _ w) as [w0 [[]|e0]];
    [|rewrite isinstance_Exception; reflexivity].
  destruct (os_makedirs path w0) as [w1 [[]|e1]];
    [|rewrite isinstance_Exception; reflexivity].
  destruct (YoutubeDL_download _ _ _ _) as [w' [[]|e]];
    [reflexivity|rewrite isinstance_Exception; reflexivity].
Qed.

Lemma YoutubeDL_download_frame {X : Type} (proj : World -> X) (a p : bool)
    (path url : string) (w : World) :
  (forall fs w, proj (set_files fs w) = proj w) ->
  (forall d w, proj (hook d a w).1 = proj w) ->
  proj (YoutubeDL_download ydl (opts path a p) [url] w).1
  = proj (add_download (opts_data (opts path a p)) [url] w).
Proof.
  intros Hfiles Hhook. unfold YoutubeDL_download.
  apply (run_ydl_frame proj Hfiles).
  intros h d w' Hin. simpl in Hin. apply list_elem_of_singleton in Hin as ->.
  apply Hhook.
Qed.

Lemma YoutubeDL_download_downloads (a p : bool) (path url : string) (w : World) :
  downloads (YoutubeDL_download ydl (opts path a p) [url] w).1 =
  (downloads w ++ [(opts_data (opts path a p), [url])])%list.
Proof.
  rewrite (YoutubeDL_download_frame downloads); [reflexivity|reflexivity|].
  intros d w'. apply hook_frame_downloads.
Qed.

Lemma YoutubeDL_download_level (a p : bool) (path url : string) (w : World) :
  logger_level (YoutubeDL_download ydl (opts path a p) [url] w).1 = logger_level w.
Proof.
  rewrite (YoutubeDL_download_frame logger_level); [reflexivity|reflexivity|].
  intros d w'. apply hook_frame_level.
Qed.

Lemma YoutubeDL_download_procs (p : bool) (path url : string) (w : World) :
  procs (YoutubeDL_download ydl (opts path false p) [url] w).1 = procs w.
Proof.
  rewrite (YoutubeDL_download_frame procs); [reflexivity|reflexivity|].
  intros d w'. apply hook_frame_procs.
Qed.

(** The fetch when its prelude raises: the download tool is not called,
    and the error of the prelude is handed to the logger. *)
Lemma fetch_not_started (url path : string) (a p : bool) (w w1 : World) (e : exn) :
  fetch_prelude url path w = (w1, Raised e) ->
  fetch url path a p w =
  write_error ("Error downloading playlist: " +:+ url +:+ ", " +:+ str e) w1.
Proof. intros Hpre. rewrite fetch_unfold, Hpre. reflexivity. Qed.

(** The fetch when its prelude returns: the world is the one the
    download tool leaves, with the error of the tool handed to the logger
    if it raised, and the fetch returns normally. *)
Lemma fetch_started (url path : string) (a p : bool) (w w1 : World) :
  fetch_prelude url path w = (w1, Returned tt) ->
  fetch url path a p w =
  match YoutubeDL_download ydl (opts path a p) [url] w1 with
  | (w', Returned _) => (w', Returned tt)
  | (w', Raised e) =>
      (add_log ERROR ("Error downloading playlist: " +:+ url +:+ ", " +:+ str e) w',
       Returned tt)
  end.
Proof.
  intros Hpre. rewrite fetch_unfold, Hpre. cbv zeta.
  destruct (fetch_prelude_cases url path w) as [[e He]|(ds & Hnum & _ & Hds)];
    [rewrite He in Hpre; discriminate|].
  rewrite Hds in Hpre. injection Hpre as <-.
  pose proof (YoutubeDL_download_level a p path url
    (set_dirs ds (add_log DEBUG ("Starting download for playlist: " +:+ url) w)))
    as Hlevel.
  destruct (YoutubeDL_download _ _ _ _) as [w' [[]|e]]; [reflexivity|].
  unfold write_error. rewrite Logger_write_eq. simpl in Hlevel. rewrite Hlevel.
  destruct (logger_level w); [reflexivity|contradiction].
Qed.

(** The calls of the download tool made by one fetch: one when the
    prelude returns, none when it raises. *)
Lemma fetch_downloads (url path : string) (a p : bool) (w : World) :
  downloads (fetch url path a p w).1 =
  (downloads w ++
   match (fetch_prelude url path w).2 with
   | Returned _ => [(opts_data (opts path a p), [url])]
   | Raised _ => []
   end)%list.
Proof.
  destruct (fetch_prelude_cases url path w) as [[e He]|(ds & Hnum & _ & Hds)].
  - rewrite (fetch_not_started url path a p w _ e He), He. simpl.
    unfold write_error. rewrite Logger_write_eq. simpl.
    rewrite app_nil_r. reflexivity.
  - rewrite (fetch_started url path a p w _ Hds), Hds. simpl.
    pose proof (YoutubeDL_download_downloads a p path url
      (set_dirs ds (add_log DEBUG ("Starting download for playlist: " +:+ url) w)))
      as H.
    destruct (YoutubeDL_download _ _ _ _) as [w' [[]|e]]; exact H.
Qed.

(** The fetch raises only the TypeError of a logger whose level is not a
    number. *)
Lemma fetch_returns (url path : string) (a p : bool) (w : World) :
  logger_level w <> None -> (fetch url path a p w).2 = Returned tt.
Proof.
  intros Hnum.
  destruct (fetch_prelude_cases url path w) as [[e He]|(ds & _ & _ & Hds)].
  - rewrite (fetch_not_started url path a p w _ e He).
    unfold write_error. rewrite Logger_write_eq. simpl.
    destruct (logger_level w); [reflexivity|contradiction].
  - rewrite (fetch_started url path a p w _ Hds).
    destruct (YoutubeDL_download _ _ _ _) as [w' [[]|e]]; reflexivity.
Qed.

(** C4: for every request with audioOnly=false, over the whole fetch and
    whatever the download tool does and reports (any status, any
    filename, even an event without these keys), no process is started:
    the history of [subprocess.run] calls is left as it was; the same
    holds for the hook alone. *)
Theorem video_never_transcodes (url path : string) (isPlaylist : bool)
    (d : gmap string string) (w : World) :
  procs (fetch url path false isPlaylist w).1 = procs w
  /\ procs (hook d false w).1 = procs w.
Proof.
  split; [|apply hook_frame_procs].
  destruct (fetch_prelude_cases url path w) as [[e He]|(ds & _ & _ & Hds)].
  - rewrite (fetch_not_started url path false isPlaylist w _ e He).
    unfold write_error. rewrite Logger_write_eq. reflexivity.
  - rewrite (fetch_started url path false isPlaylist w _ Hds).
    pose proof (YoutubeDL_download_procs isPlaylist path url
      (set_dirs ds (add_log DEBUG ("Starting download for playlist: " +:+ url) w)))
      as H.
    destruct (YoutubeDL_download _ _ _ _) as [w' [[]|e]]; exact H.
Qed.

(** C5: in every fetch the options built for the download tool have the
    format selector "bestaudio/best" when audioOnly is true and
    "bestvideo+bestaudio/best" when it is false, and every call of the
    download tool made by the fetch (there is at most one) carries
    these options and the requested url. *)
Theorem format_selector (url path : string) (keep_audio_only isPlaylist : bool)
    (w : World) :
  format (opts path true isPlaylist) = "bestaudio/best"
  /\ format (opts path false isPlaylist) = "bestvideo+bestaudio/best"
  /\ exists calls : list (YdlOpts unit * list string),
       downloads (fetch url path keep_audio_only isPlaylist w).1
       = (downloads w ++ calls)%list
       /\ length calls <= 1
       /\ Forall (fun c => format c.1 = (if keep_audio_only then "bestaudio/best"
                                          else "bestvideo+bestaudio/best")
                           /\ c.2 = [url]) calls.
Proof.
  split; [reflexivity|]. split; [reflexivity|].
  eexists. split; [apply fetch_downloads|].
  destruct (fetch_prelude url path w).2; simpl.
  - split; [lia|]. repeat constructor.
  - split; [lia|]. constructor.
Qed.

(** C6: for every url, path, audioOnly and isCollection, every behaviour
    of the download tool and of ffmpeg, and every world in which the
    fetch gets to the download tool (the statements before its call
    returned): when the download tool raises an exception [e], the
    exception is caught, the error message built from [e] is handed to
    the logger, and the fetch returns normally with the value None. *)
Theorem fetch_returns_normally (url path : string) (keep_audio_only isPlaylist : bool)
    (w w1 w' : World) (e : exn) :
  fetch_prelude url path w = (w1, Returned tt) ->
  YoutubeDL_download ydl (opts path keep_audio_only isPlaylist) [url] w1
    = (w', Raised e) ->
  fetch url path keep_audio_only isPlaylist w =
  (add_log ERROR ("Error downloading playlist: " +:+ url +:+ ", " +:+ str e) w',
   Returned tt).
Proof.
  intros Hpre Hdl.
  rewrite (fetch_started url path keep_audio_only isPlaylist w w1 Hpre), Hdl.
  reflexivity.
Qed.

(** C7 (as amended): the output filename template of the options is the
    same for isCollection=true and isCollection=false: in both cases it
    is the destination path joined with
    "%(playlist_title)s/%(playlist_index)s - %(title)s.%(ext)s", so it
    always encodes the collection name and the per-item index. *)
Theorem outtmpl_independent_of_collection (path : string)
    (keep_audio_only isPlaylist : bool) :
  let template := "%(playlist_title)s/%(playlist_index)s - %(title)s.%(ext)s" in
  outtmpl (opts path keep_audio_only isPlaylist) = OsPath.join path template
  /\ outtmpl (opts path keep_audio_only true) = outtmpl (opts path keep_audio_only false)
  /\ outtmpl (opts_data (opts path keep_audio_only isPlaylist))
     = outtmpl (opts path keep_audio_only isPlaylist)
  /\ exists prefix, outtmpl (opts path keep_audio_only isPlaylist) = prefix +:+ template.
Proof.
  intros template. repeat split.
  unfold ydl_opts, OsPath.join. simpl.
  destruct (String.eqb path "" || PyStr.endswith "/" path).
  - exists path. reflexivity.
  - exists (path +:+ "/"). rewrite append_assoc. reflexivity.
Qed.


End FetcherProperties.

(** ** The audio file name *)

Lemma contains_app (c : ascii) (a b : string) :
  PyStr.contains c (a +:+ b) = PyStr.contains c a || PyStr.contains c b.
Proof.
  induction a as [|x a IH]; [reflexivity|].
  rewrite append_String. simpl. rewrite IH, orb_assoc. reflexivity.
Qed.

(** C10: the audio file name is derived by splitting the whole path at
    its last dot, wherever it stands: for a filename whose basename has
    no dot while its directory prefix has one ([pre], the dot, then
    [rest] up to the slash), the name is [pre] followed by ".mp3"
    (".mp3" for "./out/NoExtension", where splitting the basename would
    give "./out/NoExtension.mp3"); for a filename without any dot it is
    the filename followed by ".mp3". *)
Theorem output_filename_splits_whole_path (pre rest base f : string) :
  PyStr.contains "." rest = false -> PyStr.contains "." base = false ->
  PyStr.contains "." f = false ->
  output_filename (pre +:+ "." +:+ rest +:+ "/" +:+ base) = pre +:+ ".mp3"
  /\ output_filename f = f +:+ ".mp3"
  /\ output_filename "./out/NoExtension" = ".mp3"
  /\ replace_extension "./out/NoExtension" ".mp3" = "./out/NoExtension.mp3".
Proof.
  intros Hrest Hbase Hf. split; [|split; [|split; reflexivity]].
  - apply output_filename_split. rewrite !contains_app, Hrest, Hbase. reflexivity.
  - apply output_filename_nodot, Hf.
Qed.

(** ** The logger *)

Lemma emitted_at_DEBUG (calls : list (LoggerLevel * string)) :
  emitted (LoggerLevel_value DEBUG) calls = calls.
Proof.
  unfold emitted. induction calls as [|[l m] calls IH]; [reflexivity|].
  rewrite filter_cons, IH. destruct l; reflexivity.
Qed.

(** ** Runs on concrete events *)

(** The scenario of the specification: an audio-only request for one
    item creates "./out", asks for "bestaudio/best", transcodes the
    reported file and deletes the original. *)
Example scenario_audio_only :
  let r := download_video ffmpeg_ok (ydl_one "./out/1 - Title.webm") str_class
             "https://example/watch?v=abc" "./out" true (world_with []) in
  r.2 = Returned tt
  /\ elements (files r.1) = ["./out/1 - Title.mp3"]
  /\ bool_decide ("./out" ∈ dirs r.1) = true
  /\ format <$> (fst <$> downloads r.1) = ["bestaudio/best"]
  /\ procs r.1 = [command "./out/1 - Title.webm"].
Proof. vm_compute. repeat split. Qed.

(** The same request without audio-only: no transcoder, original kept. *)
Example scenario_video :
  let r := download_video ffmpeg_ok (ydl_one "./out/1 - Title.webm") str_class
             "https://example/watch?v=abc" "./out" false (world_with []) in
  r.2 = Returned tt
  /\ elements (files r.1) = ["./out/1 - Title.webm"]
  /\ procs r.1 = [].
Proof. vm_compute. repeat split. Qed.

(** C1: at a "finished" event in audio-only mode on a machine where no
    program named ffmpeg can be started, [subprocess.run] raises
    FileNotFoundError, which is not a CalledProcessError: the exception
    leaves the hook. *)
Theorem hook_raises_without_ffmpeg :
  let f := "./out/1 - Title.webm" in
  (_progress_hook ffmpeg_missing str_class (event "finished" f) true
     (world_with [f])).2
  = Raised (FileNotFoundError "ffmpeg").
Proof. vm_compute. reflexivity. Qed.

(** The exception also leaves the hook when ffmpeg exits with status
    zero but the original file is not there to be removed. *)
Example hook_raises_when_original_is_gone :
  let f := "./out/1 - Title.webm" in
  (_progress_hook ffmpeg_ok str_class (event "finished" f) true
     (world_with [])).2
  = Raised (FileNotFoundError f).
Proof. vm_compute. reflexivity. Qed.

(** With a download tool that lets the exception of a hook through, the
    failure of the first item ends the batch: the second item is never
    reported, and the fetcher logs the failure of the whole download. *)
Example batch_stops_without_ffmpeg :
  let ydl : YdlBehaviour := fun _ _ =>
    YdlWrite "a.webm" (YdlReport (event "finished" "a.webm") (fun r =>
      match r with
      | Some e => YdlRaise e
      | None =>
          YdlWrite "b.webm" (YdlReport (event "finished" "b.webm")
            (fun _ => YdlReturn))
      end)) in
  let r := download_playlist ffmpeg_missing ydl str_class "u" "./out" true
             (world_with []) in
  r.2 = Returned tt
  /\ elements (files r.1) = ["a.webm"]
  /\ last (log r.1) = Some (ERROR, "Error downloading playlist: u, FileNotFoundError: ffmpeg").
Proof. vm_compute. repeat split. Qed.

(** C2: for the finished file "./out/NoExtension" in audio-only mode
    the hook starts ffmpeg once, and the last argument it hands over is
    ".mp3": not the filename with its extension replaced by ".mp3",
    which is "./out/NoExtension.mp3". *)
Theorem ffmpeg_output_not_extension_replaced :
  let f := "./out/NoExtension" in
  let w' := (_progress_hook ffmpeg_ok str_class (event "finished" f) true
               (world_with [f])).1 in
  procs w' = [["ffmpeg"; "-i"; f; "-vn"; "-ar"; "44100"; "-ac"; "2";
               "-b:a"; "320k"; "-f"; "mp3"; ".mp3"]]
  /\ replace_extension f ".mp3" = "./out/NoExtension.mp3"
  /\ procs w' <> [["ffmpeg"; "-i"; f; "-vn"; "-ar"; "44100"; "-ac"; "2";
                   "-b:a"; "320k"; "-f"; "mp3"; replace_extension f ".mp3"]].
Proof. vm_compute. repeat split. discriminate. Qed.

(** C3: for the finished file "./out/1 - Title.mp3" in audio-only mode
    the audio file has the name of the original; ffmpeg exits with
    status zero having written it, the hook logs the conversion and then
    removes the file: after the successful transcode no audio file
    exists. *)
Theorem audio_file_removed_when_already_mp3 :
  let f := "./out/1 - Title.mp3" in
  let w := world_with [f] in
  let r := _progress_hook ffmpeg_ok str_class (event "finished" f) true w in
  (exists fs, ffmpeg_ok (command f) (files w) = Some (0%Z, fs)
              /\ output_filename f ∈ fs)
  /\ r.2 = Returned tt
  /\ (INFO, "Converted ./out/1 - Title.mp3 to MP3: ./out/1 - Title.mp3") ∈ log r.1
  /\ files r.1 = ∅
  /\ ~ ((f ∉ files r.1) /\ output_filename f ∈ files r.1).
Proof.
  vm_compute. split; [eexists; split; reflexivity|]. split; [reflexivity|].
  split; [do 2 apply list_elem_of_further; apply list_elem_of_here|].
  split; [reflexivity|]. intros [_ H]. discriminate H.
Qed.

(** C7, counterexample: the template built for a single video
    (isCollection=false) is the one built for a collection, and it
    encodes the collection name and the per-item index. *)
Lemma outtmpl_same_for_video_and_playlist :
  ~ (outtmpl (ydl_opts ffmpeg_ok str_class "./out" true true)
     <> outtmpl (ydl_opts ffmpeg_ok str_class "./out" true false))
  /\ outtmpl (ydl_opts ffmpeg_ok str_class "./out" true false)
     = "./out/%(playlist_title)s/%(playlist_index)s - %(title)s.%(ext)s".
Proof. split; [intros H; apply H|]; reflexivity. Qed.

(** ** Instances of the theorems on concrete events *)

Lemma hook_noop_unless_finished_witness :
  let d := event "downloading" "./out/1 - Title.webm" in
  d !! "status" = Some "downloading" /\ "downloading" <> "finished"
  /\ _progress_hook ffmpeg_ok str_class d true (world_with ["./out/1 - Title.webm"])
     = (world_with ["./out/1 - Title.webm"], Returned tt).
Proof.
  intros d. split; [reflexivity|]. split; [discriminate|].
  apply (hook_noop_unless_finished ffmpeg_ok str_class d "downloading");
    [reflexivity|discriminate].
Defined.

Lemma fetch_returns_normally_witness :
  let url := "https://example/watch?v=abc" in
  let w := world_with [] in
  let w1 := (fetch_prelude url "./out" w).1 in
  let r := _download_from_youtube ffmpeg_ok ydl_broken str_class url "./out" true
             false w in
  fetch_prelude url "./out" w = (w1, Returned tt)
  /\ r.2 = Returned tt
  /\ last (log r.1) =
     Some (ERROR, "Error downloading playlist: https://example/watch?v=abc, DownloadError: unable to download").
Proof.
  intros url w w1 r.
  assert (Hpre : fetch_prelude url "./out" w = (w1, Returned tt))
    by (vm_compute; reflexivity).
  split; [exact Hpre|]. subst r.
  rewrite (fetch_returns_normally ffmpeg_ok ydl_broken str_class url "./out" true
             false w w1
             (YoutubeDL_download ydl_broken
                (ydl_opts ffmpeg_ok str_class "./out" true false) [url] w1).1
             (DownloadError "unable to download") Hpre);
    [|vm_compute; reflexivity].
  split; vm_compute; reflexivity.
Defined.

Lemma output_filename_splits_whole_path_witness :
  PyStr.contains "." "/out" = false /\ PyStr.contains "." "NoExtension" = false
  /\ PyStr.contains "." "Title" = false
  /\ output_filename ("" +:+ "." +:+ "/out" +:+ "/" +:+ "NoExtension") = "" +:+ ".mp3"
  /\ output_filename "Title" = "Title" +:+ ".mp3".
Proof.
  split; [reflexivity|]. split; [reflexivity|]. split; [reflexivity|].
  destruct (output_filename_splits_whole_path "" "/out" "NoExtension" "Title"
              eq_refl eq_refl eq_refl) as (H1 & H2 & _).
  split; [exact H1|exact H2].
Defined.


(** * Further properties of the downloader *)

(** ** The audio file name, continued *)

(** X1: the derived audio name always ends in ".mp3" and deriving it again
    changes nothing; the derived name is the filename itself exactly
    when the filename already ends in ".mp3". *)
Theorem output_filename_fixed_point (f : string) :
  (exists h, output_filename f = h +:+ ".mp3")
  /\ output_filename (output_filename f) = output_filename f
  /\ (output_filename f = f <-> exists h, f = h +:+ ".mp3").
Proof.
  assert (Hmp3 : forall h, output_filename (h +:+ ".mp3") = h +:+ ".mp3").
  { intros h. apply (output_filename_split h "mp3"). reflexivity. }
  split; [|split].
  - eexists. reflexivity.
  - apply Hmp3.
  - split.
    + intros H. eexists. symmetry. exact H.
    + intros [h ->]. apply Hmp3.
Qed.

(** ** The hook on events that lack a key *)

Section HookEdges.

Variable ffmpeg : ProcessBehaviour.
Variable str : exn -> string.

Local Abbreviation hook := (_progress_hook ffmpeg str).

(** X2: an event without the key 'status' makes the hook raise
    KeyError('status'), in either mode, before it does anything. *)
Theorem hook_KeyError_status (d : gmap string string) (convert_to_mp3 : bool)
    (w : World) :
  d !! "status" = None ->
  hook d convert_to_mp3 w = (w, Raised (KeyError "status")).
Proof. apply hook_status_missing. Qed.

(** X3: a "finished" event without the key 'filename' makes the hook raise
    KeyError('filename'), in either mode: nothing is logged and no
    process is started. *)
Theorem hook_KeyError_filename (d : gmap string string) (convert_to_mp3 : bool)
    (w : World) :
  d !! "status" = Some "finished" -> d !! "filename" = None ->
  hook d convert_to_mp3 w = (w, Raised (KeyError "filename")).
Proof. apply hook_filename_missing. Qed.

(** X4: in audio-only mode, with a logger whose level is a number, the
    hook hands an ERROR to the logger exactly when ffmpeg was started and
    ended with a non-zero status: an ffmpeg that cannot be started, or
    an original that cannot be removed, is never logged by the hook. *)
Theorem hook_logs_error_iff_nonzero_exit (d : gmap string string) (f : string)
    (w : World) :
  d !! "status" = Some "finished" -> d !! "filename" = Some f ->
  logger_level w <> None ->
  (exists msg, (ERROR, msg) ∈ drop (length (log w)) (log (hook d true w).1))
  <-> exists returncode fs,
        ffmpeg (command f) (files w) = Some (returncode, fs) /\ returncode <> 0%Z.
Proof.
  intros Hs Hf Hlevel. rewrite (hook_finished_audio _ _ d f w Hs Hf Hlevel).
  destruct (ffmpeg (command f) (files w)) as [[rc fs]|] eqn:Hrun.
  - destruct (Z.eqb_spec rc 0) as [->|Hrc]; simpl.
    + split.
      * intros [msg Hin]. exfalso.
        destruct (bool_decide (f ∈ fs)); simpl in Hin;
          rewrite <- ?app_assoc, drop_app_length in Hin;
          repeat (apply elem_of_cons in Hin as [Hin|Hin]; [discriminate|]);
          apply elem_of_nil in Hin; exact Hin.
      * intros (rc & fs' & [= <- _] & Hne). contradiction.
    + split; [intros _; eauto|]. intros _.
      rewrite <- !app_assoc, drop_app_length. eexists.
      do 2 apply list_elem_of_further. apply list_elem_of_here.
  - simpl. split.
    + intros [msg Hin]. exfalso.
      rewrite <- app_assoc, drop_app_length in Hin.
      repeat (apply elem_of_cons in Hin as [Hin|Hin]; [discriminate|]).
      apply elem_of_nil in Hin. exact Hin.
    + intros (rc & fs & Hnone & _). discriminate.
Qed.

End HookEdges.

(** ** The fetcher on destinations and batches *)

Lemma event_status (s f : string) : event s f !! "status" = Some s.
Proof. unfold event. apply lookup_insert_eq. Qed.

Lemma event_filename (s f : string) : event s f !! "filename" = Some f.
Proof.
  unfold event. rewrite lookup_insert_ne by discriminate. apply lookup_insert_eq.
Qed.

Lemma call_hooks_files_mono (hooks : list (gmap string string -> Py unit)) :
  (forall h d w, h ∈ hooks -> files w ⊆ files (h d w).1) ->
  forall d w, files w ⊆ files (call_hooks hooks d w).1.
Proof.
  induction hooks as [|h hooks IH]; intros Hh d w; [reflexivity|].
  simpl. unfold mbind, Py_bind, bind.
  pose proof (Hh h d w (list_elem_of_here _ _)) as Hhead.
  destruct (h d w) as [w' [[]|e]]; simpl in *; [|exact Hhead].
  etrans; [exact Hhead|]. apply IH. intros h' d' w'' Hin. apply Hh. right. exact Hin.
Qed.

Lemma run_ydl_files_mono (hooks : list (gmap string string -> Py unit)) :
  (forall h d w, h ∈ hooks -> files w ⊆ files (h d w).1) ->
  forall p w, files w ⊆ files (run_ydl hooks p w).1.
Proof.
  intros Hh p. induction p as [|e|path k IH|d k IH]; intros w; simpl.
  - reflexivity.
  - reflexivity.
  - etrans; [|apply IH]. simpl. apply union_subseteq_r.
  - pose proof (call_hooks_files_mono hooks Hh d w) as Hcall.
    destruct (call_hooks hooks d w) as [w' [[]|e]]; simpl in Hcall;
      (etrans; [exact Hcall|apply IH]).
Qed.

Lemma run_items_step (h : gmap string string -> Py unit) (f : string)
    (items : list string) (w : World) :
  run_ydl [h] (items_prog (f :: items)) w =
  run_ydl [h] (items_prog items)
    (h (event "finished" f) (set_files ({[f]} ∪ files w) w)).1.
Proof.
  simpl. unfold mbind, Py_bind, bind, ret.
  destruct (h _ _) as [w' [[]|e]]; reflexivity.
Qed.

Lemma run_items_returns (h : gmap string string -> Py unit) (items : list string)
    (w : World) :
  (run_ydl [h] (items_prog items) w).2 = Returned tt.
Proof.
  revert w. induction items as [|f items IH]; intros w; [reflexivity|].
  rewrite run_items_step. apply IH.
Qed.

Lemma match_returned (r : World * Outcome unit)
    (k : World -> exn -> World * Outcome unit) :
  r.2 = Returned tt ->
  match r with
  | (w', Returned _) => (w', Returned tt)
  | (w', Raised e) => k w' e
  end = (r.1, Returned tt).
Proof. destruct r as [w' [[]|e]]; simpl; [reflexivity|discriminate]. Qed.

(** What the prelude of a fetch leaves untouched. *)
Lemma fetch_prelude_frame (url path : string) (w : World) :
  let w1 := (fetch_prelude url path w).1 in
  files w1 = files w /\ procs w1 = procs w /\ downloads w1 = downloads w
  /\ logger_level w1 = logger_level w
  /\ log w1 = (log w ++ [(DEBUG, "Starting download for playlist: " +:+ url)])%list.
Proof.
  cbv zeta.
  destruct (fetch_prelude_cases url path w) as [[e ->]|(ds & _ & _ & ->)];
    repeat split.
Qed.

Lemma fetch_prelude_returns (url path : string) (w : World) :
  (fetch_prelude url path w).2 = Returned tt ->
  logger_level w <> None
  /\ fetch_prelude url path w = ((fetch_prelude url path w).1, Returned tt).
Proof.
  intros Hret.
  destruct (fetch_prelude_cases url path w) as [[e He]|(ds & Hnum & _ & Hds)].
  - rewrite He in Hret. discriminate.
  - split; [exact Hnum|]. rewrite Hds. reflexivity.
Qed.

Section FetcherEdges.

Variable ffmpeg : ProcessBehaviour.
Variable ydl : YdlBehaviour.
Variable str : exn -> string.

Local Abbreviation hook := (_progress_hook ffmpeg str).
Local Abbreviation opts := (ydl_opts ffmpeg str).

(** X5: without audio-only conversion the hook never touches the file
    system, whatever the event holds, and no file present before a fetch
    is missing after it, whatever a download tool that only adds files
    reports. *)
Theorem video_mode_keeps_files (url path : string) (isPlaylist : bool)
    (d : gmap string string) (w : World) :
  files (hook d false w).1 = files w
  /\ dirs (hook d false w).1 = dirs w
  /\ files w ⊆ files (_download_from_youtube ffmpeg ydl str url path false isPlaylist w).1.
Proof.
  split; [apply hook_frame_files_video|]. split; [apply hook_frame_dirs|].
  destruct (fetch_prelude_frame url path w) as (Hfiles & _).
  destruct (fetch_prelude_cases url path w) as [[e He]|(ds & _ & _ & Hds)].
  - rewrite (fetch_not_started _ _ _ url path false isPlaylist w _ e He).
    unfold write_error. rewrite Logger_write_eq. reflexivity.
  - rewrite (fetch_started _ _ _ url path false isPlaylist w _ Hds).
    rewrite Hds in Hfiles. simpl in Hfiles. unfold YoutubeDL_download.
    match goal with
    | |- context [run_ydl ?hs ?pr ?w0] =>
        assert (Hrun : files w0 ⊆ files (run_ydl hs pr w0).1)
    end.
    { apply run_ydl_files_mono. intros h d' w' Hin.
      apply list_elem_of_singleton in Hin as ->.
      rewrite hook_frame_files_video. reflexivity. }
    destruct (run_ydl _ _ _) as [w' [[]|e]]; exact Hrun.
Qed.

(** X6: a fetch returns normally exactly when the level of the logger
    is a number, whatever the download tool, ffmpeg and the operating
    system do or raise (instances of Exception, which is what the
    handler catches); when the level is not a number the start line raises
    TypeError, the handler catches it and raises TypeError again on its
    own error line, which leaves the fetch: the download tool is never
    called. *)
Theorem fetch_raises_iff_level_not_number (url path : string)
    (keep_audio_only isPlaylist : bool) (w : World) :
  let r := _download_from_youtube ffmpeg ydl str url path keep_audio_only
             isPlaylist w in
  (logger_level w <> None -> r.2 = Returned tt)
  /\ (logger_level w = None ->
      r = (add_log ERROR
             ("Error downloading playlist: " +:+ url +:+ ", " +:+ str TypeError)
             (add_log DEBUG ("Starting download for playlist: " +:+ url) w),
           Raised TypeError)).
Proof.
  cbv zeta. split; [apply fetch_returns|].
  intros Hlevel.
  assert (Hpre : fetch_prelude url path w =
                 (add_log DEBUG ("Starting download for playlist: " +:+ url) w,
                  Raised TypeError)).
  { unfold fetch_prelude, mbind, Py_bind, bind, write_debug.
    rewrite Logger_write_eq, Hlevel. reflexivity. }
  rewrite (fetch_not_started _ _ _ url path keep_audio_only isPlaylist w _ _ Hpre).
  unfold write_error. rewrite Logger_write_eq. simpl. rewrite Hlevel. reflexivity.
Qed.


(** X8: every call of the download tool made by a fetch (there is at
    most one) carries the two fault-tolerance flags (skip unavailable
    fragments, ignore errors) set, exactly one progress hook, and the
    requested url alone. *)
Theorem fetch_options_fault_tolerant (url path : string)
    (keep_audio_only isPlaylist : bool) (w : World) :
  exists calls : list (YdlOpts unit * list string),
    downloads (_download_from_youtube ffmpeg ydl str url path keep_audio_only
                 isPlaylist w).1
    = (downloads w ++ calls)%list
    /\ length calls <= 1
    /\ Forall (fun c => skip_unavailable_fragments c.1 = true
                        /\ ignoreerrors c.1 = true
                        /\ length (progress_hooks c.1) = 1
                        /\ c.2 = [url]) calls.
Proof.
  eexists. split; [apply fetch_downloads|].
  destruct (fetch_prelude url path w).2; simpl;
    (split; [lia|]); repeat constructor.
Qed.

End FetcherEdges.

(** ** Batches in audio-only mode *)

Section Batches.

Variable ffmpeg : ProcessBehaviour.
Variable str : exn -> string.

Local Abbreviation hook := (_progress_hook ffmpeg str).
Local Abbreviation started := (fetch_started_world ffmpeg str).

(** The fetch over a batch of items, once its prelude has returned. *)
Lemma fetch_items (items : list string) (url path : string) (a p : bool) (w : World) :
  (fetch_prelude url path w).2 = Returned tt ->
  _download_from_youtube ffmpeg (ydl_items items) str url path a p w =
  ((run_ydl [fun d => hook d a] (items_prog items)
      (started url path a p (fetch_prelude url path w).1)).1,
   Returned tt).
Proof.
  intros Hret. destruct (fetch_prelude_returns url path w Hret) as [_ Hpre].
  rewrite (fetch_started _ _ _ url path a p w _ Hpre).
  change (run_ydl [fun d => hook d a] (items_prog items)
            (started url path a p (fetch_prelude url path w).1))
    with (YoutubeDL_download (ydl_items items) (ydl_opts ffmpeg str path a p) [url]
            (fetch_prelude url path w).1).
  apply match_returned.
  exact (run_items_returns (fun d => hook d a) items
           (started url path a p (fetch_prelude url path w).1)).
Qed.

Lemma started_frame (url path : string) (a p : bool) (w : World) :
  let w1 := started url path a p (fetch_prelude url path w).1 in
  files w1 = files w /\ procs w1 = procs w /\ logger_level w1 = logger_level w
  /\ log w1 = (log w ++ [(DEBUG, "Starting download for playlist: " +:+ url)])%list.
Proof.
  cbv zeta. destruct (fetch_prelude_frame url path w) as (Hf & Hp & _ & Hl & Hlog).
  unfold fetch_started_world. simpl. repeat split; assumption.
Qed.

Lemma hook_procs_audio (f : string) (w : World) :
  logger_level w <> None ->
  procs (hook (event "finished" f) true w).1 = (procs w ++ [command f])%list.
Proof.
  intros Hnum.
  rewrite (hook_finished_audio _ _ _ f w (event_status _ _) (event_filename _ _) Hnum).
  destruct (ffmpeg (command f) (files w)) as [[rc fs]|]; [|reflexivity].
  destruct (rc =? 0)%Z; [|reflexivity].
  simpl. destruct (bool_decide (f ∈ fs)); reflexivity.
Qed.

Lemma run_items_procs (items : list string) (w : World) :
  logger_level w <> None ->
  procs (run_ydl [fun d => hook d true] (items_prog items) w).1 =
  (procs w ++ map command items)%list.
Proof.
  revert w. induction items as [|f items IH]; intros w Hnum.
  - simpl. rewrite app_nil_r. reflexivity.
  - rewrite run_items_step, IH.
    + rewrite hook_procs_audio by exact Hnum. simpl.
      rewrite <- app_assoc. reflexivity.
    + rewrite hook_frame_level. exact Hnum.
Qed.

(** X9: over a batch in which the download tool reports each item once
    (going on after a failing hook), when the statements before the
    call of the tool have returned, ffmpeg is started once per item, in
    the order of the items and each time with the argument list of that
    item, whatever ffmpeg does. *)
Theorem batch_transcodes_each_item_once (items : list string) (url path : string)
    (isPlaylist : bool) (w : World) :
  (fetch_prelude url path w).2 = Returned tt ->
  procs (_download_from_youtube ffmpeg (ydl_items items) str url path true
           isPlaylist w).1
  = (procs w ++ map command items)%list.
Proof.
  intros Hret. rewrite (fetch_items items url path _ _ w Hret).
  destruct (started_frame url path true isPlaylist w) as (_ & Hp & Hl & _).
  destruct (fetch_prelude_returns url path w Hret) as [Hnum _].
  simpl. rewrite run_items_procs by (rewrite Hl; exact Hnum).
  rewrite Hp. reflexivity.
Qed.

Lemma run_items_failing (returncode : Z) (items : list string) (w : World) :
  (forall cmd fs, ffmpeg cmd fs = Some (returncode, fs)) -> returncode <> 0%Z ->
  logger_level w <> None ->
  let w' := (run_ydl [fun d => hook d true] (items_prog items) w).1 in
  files w' = list_to_set items ∪ files w
  /\ log w' = (log w ++ concat (map (log_transcode_failed str returncode) items))%list.
Proof.
  intros Hrun Hrc. revert w. induction items as [|f items IH]; intros w Hnum.
  - simpl. split; [|rewrite app_nil_r; reflexivity].
    rewrite (left_id_L ∅ (∪)). reflexivity.
  - cbv zeta. rewrite run_items_step.
    destruct (IH (hook (event "finished" f) true
                    (set_files ({[f]} ∪ files w) w)).1) as [Hfiles Hlog].
    { rewrite hook_frame_level. exact Hnum. }
    rewrite Hfiles, Hlog.
    rewrite (hook_finished_audio _ _ _ f _ (event_status _ _) (event_filename _ _))
      by exact Hnum.
    rewrite Hrun. apply Z.eqb_neq in Hrc. rewrite Hrc. simpl. split.
    + rewrite (comm_L (∪) {[f]} (list_to_set items)).
      rewrite <- (assoc_L (∪)). reflexivity.
    + rewrite <- !app_assoc. reflexivity.
Qed.

(** X10: with an ffmpeg that always fails (the same non-zero status,
    files untouched), an audio-only batch whose download tool was
    reached loses no download: the fetch returns normally, the files are
    afterwards those present before together with every item, and the
    logger has received, after the start line, the three calls of each
    item in order, the last one the error of its conversion. *)
Theorem batch_keeps_originals_when_ffmpeg_fails (returncode : Z)
    (items : list string) (url path : string) (isPlaylist : bool) (w : World) :
  (forall cmd fs, ffmpeg cmd fs = Some (returncode, fs)) -> returncode <> 0%Z ->
  (fetch_prelude url path w).2 = Returned tt ->
  let r := _download_from_youtube ffmpeg (ydl_items items) str url path true
             isPlaylist w in
  r.2 = Returned tt
  /\ files r.1 = list_to_set items ∪ files w
  /\ log r.1 = (log w ++ [(DEBUG, "Starting download for playlist: " +:+ url)]
                ++ concat (map (log_transcode_failed str returncode) items))%list.
Proof.
  intros Hrun Hrc Hret r. subst r.
  rewrite (fetch_items items url path _ _ w Hret).
  split; [reflexivity|].
  destruct (started_frame url path true isPlaylist w) as (Hf & _ & Hl & Hlog0).
  destruct (fetch_prelude_returns url path w Hret) as [Hnum _].
  destruct (run_items_failing returncode items
              (started url path true isPlaylist (fetch_prelude url path w).1)
              Hrun Hrc) as [Hfiles Hlog].
  { rewrite Hl. exact Hnum. }
  simpl. split; [rewrite Hfiles, Hf; reflexivity|].
  rewrite Hlog, Hlog0, <- app_assoc. reflexivity.
Qed.

Lemma run_items_missing (items : list string) (w : World) :
  (forall cmd fs, ffmpeg cmd fs = None) ->
  logger_level w <> None ->
  let w' := (run_ydl [fun d => hook d true] (items_prog items) w).1 in
  files w' = list_to_set items ∪ files w
  /\ log w' = (log w ++ concat (map log_transcode_not_started items))%list.
Proof.
  intros Hrun. revert w. induction items as [|f items IH]; intros w Hnum.
  - simpl. split; [|rewrite app_nil_r; reflexivity].
    rewrite (left_id_L ∅ (∪)). reflexivity.
  - cbv zeta. rewrite run_items_step.
    destruct (IH (hook (event "finished" f) true
                    (set_files ({[f]} ∪ files w) w)).1) as [Hfiles Hlog].
    { rewrite hook_frame_level. exact Hnum. }
    rewrite Hfiles, Hlog.
    rewrite (hook_finished_audio _ _ _ f _ (event_status _ _) (event_filename _ _))
      by exact Hnum.
    rewrite Hrun. simpl. split.
    + rewrite (comm_L (∪) {[f]} (list_to_set items)).
      rewrite <- (assoc_L (∪)). reflexivity.
    + rewrite <- !app_assoc. reflexivity.
Qed.

(** X11: when no ffmpeg can be started and the download tool goes on
    after a failing hook, an audio-only batch whose download tool was
    reached ends without any ERROR handed to the logger: the fetch
    returns normally, every item is kept unconverted, and the logger
    has received only the start line and, per item, the INFO and DEBUG
    calls that precede the conversion. *)
Theorem batch_silent_when_ffmpeg_missing (items : list string) (url path : string)
    (isPlaylist : bool) (w : World) :
  (forall cmd fs, ffmpeg cmd fs = None) ->
  (fetch_prelude url path w).2 = Returned tt ->
  let r := _download_from_youtube ffmpeg (ydl_items items) str url path true
             isPlaylist w in
  r.2 = Returned tt
  /\ files r.1 = list_to_set items ∪ files w
  /\ log r.1 = (log w ++ [(DEBUG, "Starting download for playlist: " +:+ url)]
                ++ concat (map log_transcode_not_started items))%list
  /\ Forall (fun c => c.1 <> ERROR) (drop (length (log w)) (log r.1)).
Proof.
  intros Hrun Hret r. subst r.
  rewrite (fetch_items items url path _ _ w Hret).
  split; [reflexivity|].
  destruct (started_frame url path true isPlaylist w) as (Hf & _ & Hl & Hlog0).
  destruct (fetch_prelude_returns url path w Hret) as [Hnum _].
  destruct (run_items_missing items
              (started url path true isPlaylist (fetch_prelude url path w).1) Hrun)
    as [Hfiles Hlog].
  { rewrite Hl. exact Hnum. }
  simpl. split; [rewrite Hfiles, Hf; reflexivity|].
  assert (Hlog' : log (run_ydl [fun d => hook d true] (items_prog items)
                         (started url path true isPlaylist
                            (fetch_prelude url path w).1)).1
                  = (log w ++ [(DEBUG, "Starting download for playlist: " +:+ url)]
                     ++ concat (map log_transcode_not_started items))%list).
  { rewrite Hlog, Hlog0, <- app_assoc. reflexivity. }
  split; [exact Hlog'|]. rewrite Hlog', drop_app_length.
  apply Forall_cons. split; [discriminate|].
  clear. induction items as [|f items IH]; simpl; [constructor|].
  repeat (apply Forall_cons; split; [discriminate|]). exact IH.
Qed.

End Batches.

(** ** [SpotifyDownloader] *)

Section SpotifyProperties.

Variable ffmpeg : ProcessBehaviour.
Variable ydl : YdlBehaviour.
Variable str : exn -> string.
Variable lower : string -> string.
Variable current_user_playlists : list SpotifyPlaylist.
Variable playlist_tracks : string -> list SpotifyTrack.

Local Abbreviation spotify :=
  (download_playlist_from_spotify ffmpeg ydl str lower current_user_playlists
     playlist_tracks).
Local Abbreviation tracks_loop := (download_tracks ffmpeg ydl str).
Local Abbreviation request := (spotify_request ffmpeg str).

Lemma find_playlist_id_None (playlists : list SpotifyPlaylist) (playlist_name : string) :
  (forall p, p ∈ playlists -> lower (sp_name p) <> lower playlist_name) ->
  find_playlist_id lower playlists playlist_name = None.
Proof.
  induction playlists as [|p ps IH]; intros Hno; [reflexivity|]. simpl.
  rewrite (proj2 (String.eqb_neq _ _) (Hno p (list_elem_of_here _ _))).
  apply IH. intros q Hq. apply Hno. right. exact Hq.
Qed.

(** The prelude of a fetch into a directory that is there already. *)
Lemma fetch_prelude_again (url path : string) (w : World) :
  logger_level w <> None -> path <> "" -> path ∉ files w -> path ∈ dirs w ->
  fetch_prelude url path w =
  (add_log DEBUG ("Starting download for playlist: " +:+ url) w, Returned tt).
Proof.
  intros Hnum Hpath Hfile Hdir.
  unfold fetch_prelude, mbind, Py_bind, bind, write_debug.
  rewrite Logger_write_eq. destruct (logger_level w); [|contradiction].
  apply os_makedirs_again; assumption.
Qed.

(** One turn of the loop: either it ends the loop with an exception and
    no call of the download tool, or it makes the call for its track and
    goes on. *)
Lemma download_tracks_step (playlist_name download_path : string)
    (t : SpotifyTrack) (tracks : list SpotifyTrack) (w : World) :
  (exists w' e,
     tracks_loop playlist_name download_path (t :: tracks) w = (w', Some e)
     /\ downloads w' = downloads w)
  \/ (track_artists t <> [] /\
      exists w',
        tracks_loop playlist_name download_path (t :: tracks) w =
        tracks_loop playlist_name download_path tracks w'
        /\ downloads w' = (downloads w ++ [request playlist_name download_path t])%list).
Proof.
  simpl. destruct (track_artists t) as [|artist others] eqn:Hart.
  { left. eauto. }
  destruct (os_makedirs_cases (OsPath.join download_path playlist_name) w)
    as [[e He]|(ds & Hpath & Hfile & Hdir & Hds)].
  { left. rewrite He. eauto. }
  rewrite Hds. unfold write_info. rewrite Logger_write_eq. simpl.
  destruct (logger_level w) as [le|] eqn:Hle.
  2:{ left. eexists _, _. split; reflexivity. }
  right. split; [discriminate|].
  match goal with
  | |- context [download_video ffmpeg ydl str ?u ?p true ?w2] =>
      assert (Hpre : fetch_prelude u p w2 =
                     (add_log DEBUG ("Starting download for playlist: " +:+ u) w2,
                      Returned tt))
        by (apply fetch_prelude_again; simpl; [rewrite Hle; discriminate|..];
            assumption);
      pose proof (fetch_returns ffmpeg ydl str u p true false w2) as Hret;
      pose proof (fetch_downloads ffmpeg ydl str u p true false w2) as Hdl;
      rewrite Hpre in Hdl;
      fold (download_video ffmpeg ydl str u p true w2) in Hret, Hdl;
      destruct (download_video ffmpeg ydl str u p true w2) as [w3 [[]|e]]
  end.
  - exists w3. split; [reflexivity|]. simpl in Hdl. rewrite Hdl.
    unfold spotify_request. rewrite Hart. reflexivity.
  - exfalso. simpl in Hret. discriminate Hret. simpl. rewrite Hle. discriminate.
Qed.

Lemma download_tracks_prefix (playlist_name download_path : string)
    (tracks : list SpotifyTrack) (w : World) :
  let r := tracks_loop playlist_name download_path tracks w in
  exists k, k <= length tracks
    /\ downloads r.1 =
       (downloads w ++ take k (map (request playlist_name download_path) tracks))%list
    /\ (r.2 = None <-> k = length tracks).
Proof.
  revert w. induction tracks as [|t tracks IH]; intros w; cbv zeta.
  - exists 0. simpl. rewrite app_nil_r. repeat split; reflexivity.
  - destruct (download_tracks_step playlist_name download_path t tracks w)
      as [(w' & e & -> & Hdl)|(_ & w' & -> & Hdl)].
    + exists 0. simpl. rewrite app_nil_r.
      split; [lia|]. split; [exact Hdl|]. split; discriminate.
    + destruct (IH w') as (k & Hk & Hpre & Hiff).
      exists (S k). split; [simpl; lia|]. split.
      * rewrite Hpre, Hdl. simpl. rewrite <- app_assoc. reflexivity.
      * rewrite Hiff. simpl.
        split; [intros ->; reflexivity|intros [= ->]; reflexivity].
Qed.

(** X12: when no playlist of the user has the requested name (compared
    without regard to case) and the level of the logger is a number, the
    only effect is one ERROR handed to the logger: nothing is created or
    downloaded, and the call returns. *)
Theorem spotify_playlist_not_found (playlist_name download_path : string)
    (w : World) :
  (forall p, p ∈ current_user_playlists -> lower (sp_name p) <> lower playlist_name) ->
  logger_level w <> None ->
  spotify playlist_name download_path w =
  (add_log ERROR ("No se encontró la lista de reproducción: " +:+ playlist_name) w,
   None).
Proof.
  intros Hno Hnum. unfold download_playlist_from_spotify.
  rewrite (find_playlist_id_None _ _ Hno). unfold write_error.
  rewrite Logger_write_eq. destruct (logger_level w); [reflexivity|contradiction].
Qed.

(** X13: for a playlist that is found, the download tool is called for the
    tracks in their order, each call an audio-only single-video request
    for "ytsearch:<track> <first artist>" into the directory of the
    playlist; the calls made are a prefix of the calls for all tracks,
    and they are all made exactly when the function returns normally. *)
Theorem spotify_downloads_in_order (playlist_name download_path playlist_id : string)
    (w : World) :
  find_playlist_id lower current_user_playlists playlist_name = Some playlist_id ->
  playlist_id <> "" ->
  let tracks := playlist_tracks playlist_id in
  let r := spotify playlist_name download_path w in
  exists k, k <= length tracks
    /\ downloads r.1 =
       (downloads w ++ take k (map (request playlist_name download_path) tracks))%list
    /\ (r.2 = None <-> k = length tracks).
Proof.
  intros Hfound Hid tracks r. subst r tracks.
  unfold download_playlist_from_spotify. rewrite Hfound.
  rewrite (proj2 (String.eqb_neq _ _) Hid).
  apply download_tracks_prefix.
Qed.

Lemma download_tracks_without_artist (playlist_name download_path : string)
    (tracks : list SpotifyTrack) (w : World) :
  (exists t, t ∈ tracks /\ track_artists t = []) ->
  (tracks_loop playlist_name download_path tracks w).2 <> None.
Proof.
  revert w. induction tracks as [|t tracks IH]; intros w [t0 [Hin Hnil]].
  - apply elem_of_nil in Hin. contradiction.
  - destruct (download_tracks_step playlist_name download_path t tracks w)
      as [(w' & e & -> & _)|(Hart & w' & -> & _)]; [discriminate|].
    apply elem_of_cons in Hin as [->|Hin]; [contradiction|].
    apply IH. eauto.
Qed.

(** X14: a playlist holding a track without artist is never completed: the
    call ends with an exception (the IndexError of that track, unless an
    earlier step already raised). *)
Theorem spotify_track_without_artist (playlist_name download_path playlist_id : string)
    (w : World) :
  find_playlist_id lower current_user_playlists playlist_name = Some playlist_id ->
  playlist_id <> "" ->
  (exists t, t ∈ playlist_tracks playlist_id /\ track_artists t = []) ->
  (spotify playlist_name download_path w).2 <> None.
Proof.
  intros Hfound Hid Hbad. unfold download_playlist_from_spotify. rewrite Hfound.
  rewrite (proj2 (String.eqb_neq _ _) Hid).
  apply download_tracks_without_artist, Hbad.
Qed.

End SpotifyProperties.

(** ** [Logger] *)

Lemma emitted_above_CRITICAL (n : Z) (calls : list (LoggerLevel * string)) :
  (LoggerLevel_value CRITICAL < n)%Z -> emitted n calls = [].
Proof.
  intros Hn. unfold emitted. induction calls as [|[l m] calls IH]; [reflexivity|].
  rewrite filter_cons, IH. destruct (decide _) as [Hle|_]; [|reflexivity].
  exfalso. destruct l; simpl in *; lia.
Qed.

Lemma emitted_cons (n : Z) (l : LoggerLevel) (m : string)
    (calls : list (LoggerLevel * string)) :
  emitted n ((l, m) :: calls) =
  if (n <=? LoggerLevel_value l)%Z then (l, m) :: emitted n calls
  else emitted n calls.
Proof.
  unfold emitted. rewrite filter_cons. simpl.
  destruct (Z.leb_spec n (LoggerLevel_value l)) as [Hle|Hgt].
  - rewrite decide_True by exact Hle. reflexivity.
  - rewrite decide_False by lia. reflexivity.
Qed.

Lemma rsplit_last_no_slash_dirname (p : string) :
  PyStr.contains "/" p = false -> os_path_dirname p = "".
Proof.
  intros Hp. unfold os_path_dirname.
  rewrite (proj2 (rsplit_last_None "/" p) Hp). reflexivity.
Qed.

Section LoggerProperties.

Variable float : Type.
Variable float_le_int : float -> Z -> bool.

Local Abbreviation State := (Logger.State float).
Local Abbreviation json := (Logger.json float).
Local Abbreviation write := (Logger.write float_le_int).
Local Abbreviation replay := (Logger.replay float_le_int).

Lemma replay_int (n : Z) (calls : list (LoggerLevel * string)) (s : State) :
  Logger.debug_level s = Logger.JInt n ->
  replay calls s =
  ({| Logger.debug_level := Logger.debug_level s;
      Logger.log_file_path := Logger.log_file_path s;
      Logger.records := Logger.records s ++ emitted n calls;
      Logger.stdout := Logger.stdout s |}, None).
Proof.
  revert s. induction calls as [|[l m] calls IH]; intros s Hlevel.
  - simpl. rewrite app_nil_r. destruct s; reflexivity.
  - simpl. unfold Logger.write. rewrite Hlevel, emitted_cons. simpl.
    destruct (n <=? LoggerLevel_value l)%Z.
    + rewrite IH by reflexivity. simpl. rewrite <- app_assoc. reflexivity.
    + rewrite IH by exact Hlevel. rewrite Hlevel. reflexivity.
Qed.

(** X15: under an integer debug level [n], a sequence of calls of the
    [write_*] methods never raises and hands to the logging module
    exactly the calls whose level is at least [n], in their order; the
    class attributes are not changed. *)
Theorem Logger_gate (n : Z) (calls : list (LoggerLevel * string)) (s : State) :
  Logger.debug_level s = Logger.JInt n ->
  let r := replay calls s in
  r.2 = None
  /\ Logger.records r.1 = (Logger.records s ++ emitted n calls)%list
  /\ Logger.debug_level r.1 = Logger.debug_level s
  /\ Logger.log_file_path r.1 = Logger.log_file_path s.
Proof.
  intros Hlevel r. subst r. rewrite (replay_int n calls s Hlevel).
  repeat split.
Qed.

(** X16: a debug level above CRITICAL (50) silences the logger altogether:
    no call of any [write_*] method, errors included, reaches the log. *)
Theorem Logger_silent_above_CRITICAL (n : Z) (calls : list (LoggerLevel * string))
    (s : State) :
  Logger.debug_level s = Logger.JInt n -> (50 < n)%Z ->
  replay calls s = (s, None).
Proof.
  intros Hlevel Hn. rewrite (replay_int n calls s Hlevel).
  rewrite emitted_above_CRITICAL by exact Hn. rewrite app_nil_r.
  destruct s; reflexivity.
Qed.

(** X17: when opening the configuration file raises FileNotFoundError or
    decoding it raises json.JSONDecodeError, [load_configuration]
    returns normally, prints one line, and sets the level to DEBUG and
    the path to './logs/logFile.log', whatever they were; every later
    call of a [write_*] method is then logged. *)
Theorem Logger_unreadable_config_logs_everything (config_path msg : string)
    (read : Logger.ConfigRead float) (calls : list (LoggerLevel * string))
    (s : State) :
  read = Logger.ReadFileNotFound msg \/ read = Logger.ReadJSONDecodeError msg ->
  let r := Logger.load_configuration config_path read s in
  r.2 = None
  /\ Logger.debug_level r.1 = Logger.JInt 10
  /\ Logger.log_file_path r.1 = Logger.JStr "./logs/logFile.log"
  /\ Logger.stdout r.1
     = (Logger.stdout s ++ ["Error al leer " +:+ config_path +:+ ": " +:+ msg])%list
  /\ (replay calls r.1).2 = None
  /\ Logger.records (replay calls r.1).1 = (Logger.records s ++ calls)%list.
Proof.
  intros Hread r. subst r.
  assert (Hload : Logger.load_configuration config_path read s =
    ({| Logger.debug_level := Logger.JInt 10;
        Logger.log_file_path := Logger.JStr "./logs/logFile.log";
        Logger.records := Logger.records s;
        Logger.stdout :=
          Logger.stdout s ++ ["Error al leer " +:+ config_path +:+ ": " +:+ msg] |},
     None)).
  { destruct Hread as [->| ->]; reflexivity. }
  rewrite Hload. simpl. repeat (split; [reflexivity|]).
  rewrite (replay_int 10 calls) by reflexivity. simpl.
  change (emitted 10 calls) with (emitted (LoggerLevel_value DEBUG) calls).
  rewrite (emitted_at_DEBUG calls). split; reflexivity.
Qed.

(** X18: a configuration whose 'debugLevel' is a string is loaded without
    complaint, and from then on every [write_*] method raises TypeError
    and logs nothing. *)
Theorem Logger_string_level_breaks_logging (config_path x : string)
    (config debug_config : gmap string json) (s : State) :
  config !! "debugConfig" = Some (Logger.JDict debug_config) ->
  debug_config !! "debugLevel" = Some (Logger.JStr x) ->
  let r := Logger.load_configuration config_path (Logger.ReadOk (Logger.JDict config)) s in
  r.2 = None
  /\ Logger.get_debug_level r.1 = Logger.JStr x
  /\ forall level message, write level message r.1 = (r.1, Some Logger.TypeError).
Proof.
  intros Hc Hd r. subst r. unfold Logger.load_configuration, Logger.get.
  rewrite Hc. simpl. rewrite Hd. simpl. repeat split.
Qed.

(** X19: a configuration that is valid JSON but is not an object, or whose
    'debugConfig' is not an object, makes [load_configuration] raise
    AttributeError, which it does not catch; the class attributes keep
    their values and nothing is printed. *)
Theorem Logger_malformed_config (config_path : string) (config : json) (s : State) :
  (forall c, config <> Logger.JDict c)
  \/ (exists c v, config = Logger.JDict c /\ c !! "debugConfig" = Some v
                  /\ forall dc, v <> Logger.JDict dc) ->
  Logger.load_configuration config_path (Logger.ReadOk config) s
  = (s, Some Logger.AttributeError).
Proof.
  intros [Hno|(c & v & -> & Hc & Hno)].
  - destruct config; try reflexivity. exfalso. eapply Hno. reflexivity.
  - unfold Logger.load_configuration, Logger.get. rewrite Hc. simpl.
    destruct v; try reflexivity. exfalso. eapply Hno. reflexivity.
Qed.

(** X20: constructing a Logger on a log file given without directory (no
    slash in its path) raises the FileNotFoundError of [os.makedirs('')],
    once the configuration is loaded: logging is never set up. *)
Theorem Logger_init_bare_filename (logging_basicConfig : string -> Py unit)
    (log_file config_json : string) (read : Logger.ConfigRead float)
    (s : State) (w : World) :
  PyStr.contains "/" log_file = false ->
  (Logger.load_configuration config_json read s).2 = None ->
  Logger.init logging_basicConfig log_file config_json read s w =
  ((Logger.load_configuration config_json read s).1, w,
   Some (Logger.OsError (FileNotFoundError ""))).
Proof.
  intros Hslash Hload. unfold Logger.init.
  destruct (Logger.load_configuration config_json read s) as [s1 [e|]];
    [discriminate Hload|].
  rewrite (rsplit_last_no_slash_dirname log_file Hslash). reflexivity.
Qed.

(** The world of the downloader and the class [Logger] agree: the
    comparison held by the world is the one of the class attribute. *)
Lemma level_of_le (v : json) (n : Z) :
  Logger.le float_le_int v n = (fun le => le n) <$> level_of float_le_int v.
Proof. destruct v; reflexivity. Qed.

(** A call of a [write_*] method returns or raises TypeError in the
    world of the downloader as it does in the class, and hands on to the
    logging module what the class hands on. *)
Lemma Logger_write_agrees (s : State) (w : World) (level : LoggerLevel)
    (message : string) :
  logger_level w = level_of float_le_int (Logger.debug_level s) ->
  Logger.records s = handed_on w ->
  let r := write level message s in
  let r' := Logger_write level message w in
  (r.2 = None <-> r'.2 = Returned tt)
  /\ (r.2 = Some Logger.TypeError <-> r'.2 = Raised TypeError)
  /\ Logger.records r.1 = handed_on r'.1.
Proof.
  intros Hlevel Hrec. cbv zeta. unfold Logger.write.
  rewrite Logger_write_eq, level_of_le. unfold handed_on in *. simpl.
  rewrite Hlevel in *.
  destruct (level_of float_le_int (Logger.debug_level s)) as [le|]; simpl.
  - rewrite filter_app, filter_cons, filter_nil. cbn [fst]. rewrite <- Hrec.
    destruct (decide (le (LoggerLevel_value level) = true)) as [Hle|Hle].
    + rewrite Hle. repeat split; try reflexivity; discriminate.
    + apply not_true_is_false in Hle. rewrite Hle, app_nil_r.
      repeat split; try reflexivity; discriminate.
  - repeat split; try reflexivity; try discriminate. exact Hrec.
Qed.

End LoggerProperties.

(** ** Runs in the states where the logger or the destination fail *)

(** With a logger whose level is a string, the start line of a fetch
    raises TypeError, and so does the error line of the handler: the
    exception leaves the fetch and the download tool is never called. *)
Example fetch_raises_when_level_is_a_string :
  let r := _download_from_youtube ffmpeg_ok (ydl_one "./out/a.webm") str_class
             "u" "./out" true false (world_level_str []) in
  r.2 = Raised TypeError
  /\ downloads r.1 = []
  /\ log r.1 = [(DEBUG, "Starting download for playlist: u");
                (ERROR, "Error downloading playlist: u, TypeError")].
Proof. vm_compute. repeat split. Qed.

(** With the same logger the hook raises TypeError on a finished event
    before ffmpeg is started. *)
Example hook_raises_when_level_is_a_string :
  let r := _progress_hook ffmpeg_ok str_class (event "finished" "./out/a.webm")
             true (world_level_str ["./out/a.webm"]) in
  r.2 = Raised TypeError /\ procs r.1 = [].
Proof. vm_compute. repeat split. Qed.

(** Below a regular file the destination cannot be made: the download
    tool is not called, and the error of [os.makedirs] is logged. *)
Example fetch_below_a_file :
  let r := _download_from_youtube ffmpeg_ok (ydl_one "./out/sub/a.webm") str_class
             "u" "./out/sub" true false (world_with ["./out"]) in
  r.2 = Returned tt
  /\ downloads r.1 = []
  /\ elements (dirs r.1) = []
  /\ last (log r.1)
     = Some (ERROR, "Error downloading playlist: u, NotADirectoryError: ./out/sub").
Proof. vm_compute. repeat split. Qed.

(** ** Instances of the further properties *)

Example dirname_examples :
  os_path_dirname "./logs/LogFile.log" = "./logs"
  /\ os_path_dirname "logFile.log" = ""
  /\ os_path_dirname "/a" = "/"
  /\ os_path_dirname "a//b" = "a".
Proof. repeat split. Qed.

Lemma hook_KeyError_status_witness :
  let d : gmap string string := {[ "filename" := "./out/1 - Title.webm" ]} in
  d !! "status" = None
  /\ _progress_hook ffmpeg_ok str_class d true (world_with [])
     = (world_with [], Raised (KeyError "status")).
Proof.
  intros d. split; [reflexivity|].
  apply (hook_KeyError_status ffmpeg_ok str_class d true (world_with [])).
  reflexivity.
Defined.

Lemma hook_KeyError_filename_witness :
  let d : gmap string string := {[ "status" := "finished" ]} in
  d !! "status" = Some "finished" /\ d !! "filename" = None
  /\ _progress_hook ffmpeg_ok str_class d true (world_with [])
     = (world_with [], Raised (KeyError "filename")).
Proof.
  intros d. split; [reflexivity|]. split; [reflexivity|].
  apply (hook_KeyError_filename ffmpeg_ok str_class d true (world_with []));
    reflexivity.
Defined.

Lemma hook_logs_error_iff_nonzero_exit_witness :
  let f := "./out/1 - Title.webm" in
  let d := event "finished" f in
  let w := world_with [f] in
  logger_level w <> None
  /\ ffmpeg_fail (command f) (files w) = Some (1%Z, files w)
  /\ exists msg,
       (ERROR, msg) ∈ drop (length (log w))
                        (log (_progress_hook ffmpeg_fail str_class d true w).1).
Proof.
  intros f d w.
  assert (Hnum : logger_level w <> None) by discriminate.
  split; [exact Hnum|]. split; [reflexivity|].
  apply (proj2 (hook_logs_error_iff_nonzero_exit ffmpeg_fail str_class d f w
                  eq_refl eq_refl Hnum)).
  exists 1%Z, (files w). split; [reflexivity|discriminate].
Defined.

Lemma fetch_raises_iff_level_not_number_witness :
  logger_level (world_with []) <> None
  /\ logger_level (world_level_str []) = None
  /\ (_download_from_youtube ffmpeg_ok (ydl_one "./out/a.webm") str_class
        "u" "./out" true false (world_with [])).2 = Returned tt
  /\ (_download_from_youtube ffmpeg_ok (ydl_one "./out/a.webm") str_class
        "u" "./out" true false (world_level_str [])).2 = Raised TypeError.
Proof.
  assert (Hnum : logger_level (world_with []) <> None) by discriminate.
  split; [exact Hnum|]. split; [reflexivity|]. split.
  - apply (fetch_raises_iff_level_not_number ffmpeg_ok (ydl_one "./out/a.webm")
             str_class "u" "./out" true false (world_with [])). exact Hnum.
  - rewrite (proj2 (fetch_raises_iff_level_not_number ffmpeg_ok
                      (ydl_one "./out/a.webm") str_class "u" "./out" true false
                      (world_level_str [])) eq_refl).
    reflexivity.
Defined.


Lemma batch_transcodes_each_item_once_witness :
  let items := ["./out/a.webm"; "./out/b.webm"] in
  (fetch_prelude "u" "./out" (world_with [])).2 = Returned tt
  /\ procs (_download_from_youtube ffmpeg_ok (ydl_items items) str_class
              "u" "./out" true true (world_with [])).1
     = [command "./out/a.webm"; command "./out/b.webm"].
Proof.
  intros items.
  assert (Hpre : (fetch_prelude "u" "./out" (world_with [])).2 = Returned tt)
    by (vm_compute; reflexivity).
  split; [exact Hpre|].
  apply (batch_transcodes_each_item_once ffmpeg_ok str_class items "u" "./out"
           true (world_with []) Hpre).
Defined.

Lemma batch_keeps_originals_when_ffmpeg_fails_witness :
  let items := ["./out/a.webm"; "./out/b.webm"] in
  (forall cmd fs, ffmpeg_fail cmd fs = Some (1%Z, fs))
  /\ (fetch_prelude "u" "./out" (world_with [])).2 = Returned tt
  /\ files (_download_from_youtube ffmpeg_fail (ydl_items items) str_class
              "u" "./out" true true (world_with [])).1
     = list_to_set items ∪ files (world_with []).
Proof.
  intros items.
  assert (Hpre : (fetch_prelude "u" "./out" (world_with [])).2 = Returned tt)
    by (vm_compute; reflexivity).
  split; [reflexivity|]. split; [exact Hpre|].
  destruct (batch_keeps_originals_when_ffmpeg_fails ffmpeg_fail str_class 1 items
              "u" "./out" true (world_with []))
    as (_ & Hfiles & _);
    [reflexivity|discriminate|exact Hpre|].
  exact Hfiles.
Defined.

Lemma batch_silent_when_ffmpeg_missing_witness :
  let items := ["./out/a.webm"; "./out/b.webm"] in
  let r := _download_from_youtube ffmpeg_missing (ydl_items items) str_class
             "u" "./out" true true (world_with []) in
  (forall cmd fs, ffmpeg_missing cmd fs = None)
  /\ (fetch_prelude "u" "./out" (world_with [])).2 = Returned tt
  /\ r.2 = Returned tt
  /\ Forall (fun c => c.1 <> ERROR) (drop (length (log (world_with []))) (log r.1)).
Proof.
  intros items r.
  assert (Hpre : (fetch_prelude "u" "./out" (world_with [])).2 = Returned tt)
    by (vm_compute; reflexivity).
  split; [reflexivity|]. split; [exact Hpre|].
  destruct (batch_silent_when_ffmpeg_missing ffmpeg_missing str_class items
              "u" "./out" true (world_with []))
    as (Hret & _ & _ & Hlog);
    [reflexivity|exact Hpre|].
  split; [exact Hret|exact Hlog].
Defined.

Lemma spotify_playlist_not_found_witness :
  (forall p, p ∈ sample_playlists -> lower_ascii (sp_name p) <> lower_ascii "Jazz")
  /\ logger_level (world_with []) <> None
  /\ download_playlist_from_spotify ffmpeg_ok ydl_broken str_class lower_ascii
       sample_playlists sample_tracks "Jazz" "./descargas" (world_with [])
     = (add_log ERROR "No se encontró la lista de reproducción: Jazz" (world_with []),
        None).
Proof.
  assert (Hno : forall p, p ∈ sample_playlists ->
                 lower_ascii (sp_name p) <> lower_ascii "Jazz").
  { intros p Hin. unfold sample_playlists in Hin.
    repeat (apply elem_of_cons in Hin as [->|Hin]; [discriminate|]).
    apply elem_of_nil in Hin. contradiction. }
  assert (Hnum : logger_level (world_with []) <> None) by discriminate.
  split; [exact Hno|]. split; [exact Hnum|].
  apply (spotify_playlist_not_found ffmpeg_ok ydl_broken str_class lower_ascii
           sample_playlists sample_tracks "Jazz" "./descargas" (world_with []) Hno
           Hnum).
Defined.

Lemma spotify_downloads_in_order_witness :
  let r := download_playlist_from_spotify ffmpeg_ok ydl_broken str_class lower_ascii
             sample_playlists sample_tracks "road trip" "./descargas"
             (world_with []) in
  find_playlist_id lower_ascii sample_playlists "road trip" = Some "37i9"
  /\ exists k, k <= 2
       /\ downloads r.1 =
          take k (map (spotify_request ffmpeg_ok str_class "road trip" "./descargas")
                    (sample_tracks "37i9"))
       /\ (r.2 = None <-> k = 2).
Proof.
  intros r. split; [reflexivity|].
  apply (spotify_downloads_in_order ffmpeg_ok ydl_broken str_class lower_ascii
           sample_playlists sample_tracks "road trip" "./descargas" "37i9"
           (world_with []));
    [reflexivity|discriminate].
Defined.

Lemma spotify_track_without_artist_witness :
  find_playlist_id lower_ascii sample_playlists "FOCUS" = Some "5Xyz"
  /\ (exists t, t ∈ sample_tracks "5Xyz" /\ track_artists t = [])
  /\ (download_playlist_from_spotify ffmpeg_ok ydl_broken str_class lower_ascii
        sample_playlists sample_tracks "FOCUS" "./descargas" (world_with [])).2
     <> None.
Proof.
  assert (Hbad : exists t, t ∈ sample_tracks "5Xyz" /\ track_artists t = []).
  { eexists. split; [apply list_elem_of_here|reflexivity]. }
  split; [reflexivity|]. split; [exact Hbad|].
  apply (spotify_track_without_artist ffmpeg_ok ydl_broken str_class lower_ascii
           sample_playlists sample_tracks "FOCUS" "./descargas" "5Xyz"
           (world_with []));
    [reflexivity|discriminate|exact Hbad].
Defined.

Lemma Logger_gate_witness :
  let s : Logger.State Empty_set :=
    {| Logger.debug_level := Logger.JInt 30; Logger.log_file_path := Logger.JStr "x.log";
       Logger.records := []; Logger.stdout := [] |} in
  let calls := [(DEBUG, "a"); (ERROR, "b"); (INFO, "c"); (WARNING, "d")] in
  Logger.debug_level s = Logger.JInt 30
  /\ Logger.records (Logger.replay no_float_le_int calls s).1
     = [(ERROR, "b"); (WARNING, "d")].
Proof.
  intros s calls. split; [reflexivity|].
  destruct (Logger_gate Empty_set no_float_le_int 30 calls s eq_refl)
    as (_ & Hrec & _).
  rewrite Hrec. reflexivity.
Defined.

Lemma Logger_silent_above_CRITICAL_witness :
  let s : Logger.State Empty_set :=
    {| Logger.debug_level := Logger.JInt 60; Logger.log_file_path := Logger.JStr "x.log";
       Logger.records := []; Logger.stdout := [] |} in
  let calls := [(ERROR, "Error downloading playlist"); (CRITICAL, "c")] in
  Logger.debug_level s = Logger.JInt 60 /\ (50 < 60)%Z
  /\ Logger.replay no_float_le_int calls s = (s, None).
Proof.
  intros s calls. split; [reflexivity|]. split; [lia|].
  apply (Logger_silent_above_CRITICAL Empty_set no_float_le_int 60 calls s);
    [reflexivity|lia].
Defined.

Lemma Logger_unreadable_config_logs_everything_witness :
  let r := Logger.load_configuration (float := Empty_set) "./config.json"
             (Logger.ReadFileNotFound "No such file") Logger.initial in
  r.2 = None
  /\ Logger.records
       (Logger.replay no_float_le_int [(DEBUG, "a"); (CRITICAL, "b")] r.1).1
     = [(DEBUG, "a"); (CRITICAL, "b")].
Proof.
  intros r.
  destruct (Logger_unreadable_config_logs_everything Empty_set no_float_le_int
              "./config.json" "No such file" (Logger.ReadFileNotFound "No such file")
              [(DEBUG, "a"); (CRITICAL, "b")] Logger.initial (or_introl eq_refl))
    as (Hret & _ & _ & _ & _ & Hrec).
  split; [exact Hret|exact Hrec].
Defined.

Lemma Logger_string_level_breaks_logging_witness :
  let debug_config : gmap string (Logger.json Empty_set) :=
    {[ "debugLevel" := Logger.JStr "INFO" ]} in
  let config : gmap string (Logger.json Empty_set) :=
    {[ "debugConfig" := Logger.JDict debug_config ]} in
  let r := Logger.load_configuration "./config.json"
             (Logger.ReadOk (Logger.JDict config)) Logger.initial in
  config !! "debugConfig" = Some (Logger.JDict debug_config)
  /\ debug_config !! "debugLevel" = Some (Logger.JStr "INFO")
  /\ r.2 = None
  /\ Logger.write_info no_float_le_int "YouTubeDownloader initialized." r.1
     = (r.1, Some Logger.TypeError).
Proof.
  intros debug_config config r.
  assert (Hc : config !! "debugConfig" = Some (Logger.JDict debug_config))
    by apply lookup_singleton_eq.
  assert (Hd : debug_config !! "debugLevel" = Some (Logger.JStr "INFO"))
    by apply lookup_singleton_eq.
  split; [exact Hc|]. split; [exact Hd|].
  destruct (Logger_string_level_breaks_logging Empty_set no_float_le_int
              "./config.json" "INFO" config debug_config Logger.initial Hc Hd)
    as (Hret & _ & Hwrite).
  split; [exact Hret|]. apply Hwrite.
Defined.

Lemma Logger_malformed_config_witness :
  let config : Logger.json Empty_set := Logger.JList [Logger.JInt 10] in
  (forall c, config <> Logger.JDict c)
  /\ Logger.load_configuration "./config.json" (Logger.ReadOk config) Logger.initial
     = (Logger.initial, Some Logger.AttributeError).
Proof.
  intros config.
  assert (Hno : forall c, config <> Logger.JDict c) by (intros c; discriminate).
  split; [exact Hno|].
  apply (Logger_malformed_config Empty_set "./config.json" config Logger.initial
           (or_introl Hno)).
Defined.

Lemma Logger_init_bare_filename_witness :
  let read : Logger.ConfigRead Empty_set := Logger.ReadFileNotFound "No such file" in
  PyStr.contains "/" "logFile.log" = false
  /\ (Logger.load_configuration "./config.json" read Logger.initial).2 = None
  /\ (Logger.init basicConfig_creates "logFile.log" "./config.json" read
        Logger.initial (world_with [])).2
     = Some (Logger.OsError (FileNotFoundError "")).
Proof.
  intros read. split; [reflexivity|]. split; [reflexivity|].
  rewrite (Logger_init_bare_filename Empty_set basicConfig_creates "logFile.log"
             "./config.json" read Logger.initial (world_with []) eq_refl eq_refl).
  reflexivity.
Defined.
